(** * projectCatalog: the account manager (class [UserManagment])

    A shallow embedding of the user-account and credential lifecycle of
    the projectCatalog backend: the static methods of [UserManagment]
    become functions over an explicit [World] (the DynamoDB tables, the
    S3 bucket and the mail outbox), run in a small state monad.  What a
    call reads from outside the tables (the clock, [Math.random], uuids,
    bcrypt salts, and the answers of S3, of the mailer and of the article
    service) is passed in an [Env] record, one per call.

    Modelling boundaries, stated once:
    - rows of the [Users] table are [UserObject] records, typed as the
      TypeScript interface of that name; [ProfilePicChange], declared
      [any], holds the two shapes the class writes: the string ['null']
      and a number;
    - unix timestamps are integers ([Z]);
    - a request to the [Users] table either answers or raises
      ([dbFault]); the other collaborators answer with a value. *)

From stdpp Require Import gmap strings list fin_maps.
From Stdlib Require Import ZArith String Ascii Lia.

Open Scope Z_scope.

(** ** JavaScript values *)

(** The values [updateUser] dispatches on with [typeof], and the values a
    JWT payload carries.  [JUndefined] stands for every value [updateUser]
    calls an unsupported data type. *)
Inductive JsValue :=
| JString (s : string)
| JNumber (n : Z)
| JBoolean (b : bool)
| JArray (l : list string)
| JNull
| JUndefined.

(** A JavaScript object used as a dictionary: own keys to values. *)
Abbreviation JsObject := (gmap string JsValue).

(** Truthiness of a string operand of [||]: only the empty string is
    falsy. *)
Definition truthy (s : string) : bool := negb (String.eqb s "").

(** ** Strings: hexadecimal rendering and the two regular expressions *)

Definition hexDigit (d : Z) : ascii :=
  if d <? 10 then ascii_of_N (Z.to_N (48 + d)) else ascii_of_N (Z.to_N (87 + d)).

(** [byte.toString(16)] for a byte. *)
Definition toString16 (b : Z) : string :=
  if b <? 16 then String (hexDigit b) EmptyString
  else String (hexDigit (b / 16)) (String (hexDigit (b mod 16)) EmptyString).

(** [s.padStart(2, '0')] for a string of one or two characters. *)
Definition padStart2 (s : string) : string :=
  match s with
  | EmptyString => "00"
  | String c EmptyString => String "0" (String c EmptyString)
  | _ => s
  end.

(** [randomBytesHex(length)]: [rnd i] is the [i]-th value of
    [Math.floor(Math.random() * 256)]; the store into the [Uint8Array]
    keeps it modulo 256. *)
Definition randomBytesHex (length : nat) (rnd : nat → Z) : string :=
  let buffer := map (λ i, rnd i mod 256) (seq 0 length) in
  String.concat "" (map (λ byte, padStart2 (toString16 byte)) buffer).

Fixpoint stripPrefix (p s : string) : option string :=
  match p with
  | EmptyString => Some s
  | String a p' =>
      match s with
      | String b s' => if Ascii.eqb a b then stripPrefix p' s' else None
      | EmptyString => None
      end
  end.

(** Longest prefix whose characters satisfy [f], and the rest. *)
Fixpoint span (f : ascii → bool) (s : string) : string * string :=
  match s with
  | String c s' =>
      if f c then let '(a, b) := span f s' in (String c a, b)
      else (EmptyString, s)
  | EmptyString => (EmptyString, EmptyString)
  end.

(** An unanchored regular expression tries every start position from the
    left; [at_ s] is the capture group when the expression matches at the
    head of [s]. *)
Fixpoint firstMatch (at_ : string → option string) (s : string) : option string :=
  match at_ s with
  | Some g => Some g
  | None =>
      match s with
      | String _ s' => firstMatch at_ s'
      | EmptyString => None
      end
  end.

(** The class [[a-f0-9-]]. *)
Definition isHexDash (c : ascii) : bool :=
  let n := N_of_ascii c in
  ((97 <=? n) && (n <=? 102) || (48 <=? n) && (n <=? 57) || (n =? 45))%N.

(** [/images\/([a-f0-9-]+)\.(?:png|jpg|jpeg|gif)$/] at the head of [s]:
    the group is the whole run of class characters, since the next
    character has to be the dot. *)
Definition oldImageAt (s : string) : option string :=
  match stripPrefix "images/" s with
  | Some rest =>
      let '(g, tl) := span isHexDash rest in
      if negb (String.eqb g "")
         && existsb (String.eqb tl) [".png"; ".jpg"; ".jpeg"; ".gif"]%string
      then Some g else None
  | None => None
  end.

Definition matchOldImageId (url : string) : option string :=
  firstMatch oldImageAt url.

(** The prefix of [r] in front of its last dot. *)
Fixpoint beforeLastDot (r : string) : option string :=
  match r with
  | EmptyString => None
  | String c r' =>
      match beforeLastDot r' with
      | Some p => Some (String c p)
      | None => if Ascii.eqb c "." then Some EmptyString else None
      end
  end.

(** [/images\/([^\/]+)\./] at the head of [s]: the greedy group runs over
    the characters that are not a slash and gives back up to the last
    dot of that run; it keeps at least one character. *)
Definition imageIdAt (s : string) : option string :=
  match stripPrefix "images/" s with
  | Some rest =>
      let '(run, _) := span (λ c, negb (Ascii.eqb c "/")) rest in
      match beforeLastDot run with
      | Some g => if String.eqb g "" then None else Some g
      | None => None
      end
  | None => None
  end.

Definition matchImageId (url : string) : option string :=
  firstMatch imageIdAt url.

(** ** The data model *)

(** [ProfilePicChange]: the string ['null'] until the first change, then
    the unix time of the last one. *)
Inductive PicChange :=
| PicNull
| PicAt (t : Z).

(** [interface UserObject]. *)
Record UserObject := {
  Username : string;
  Password : string;
  Email : string;
  Admin : string;
  CanPost : string;
  Verified : string;
  LastPasswordChange : Z;
  LastEmailChange : Z;
  Liked : list string;
  ProfilePic : string;
  ProfilePicChange : PicChange;
  AccountCreated : Z;
}.

(** The token objects the class hands to [Tokens.createToken]:
    [newEmail] is present on the tokens [requestEmailChange] builds. *)
Record Token := {
  username : string;
  value : string;
  type : string;
  expiration : Z;
  newEmail : option string;
}.

(** An article row, as far as the account manager touches it. *)
Record Article := {
  Author : string;
  AuthorProfilePic : string;
}.

(** What [S3.saveImage(id, file, width, height)] stores under [id]. *)
Record Image := {
  imageFile : string;
  imageWidth : Z;
  imageHeight : Z;
}.

Inductive Mail :=
| AccountVerificationEmail (email user code : string)
| EmailChangeVerificationEmail (email user code : string)
| PasswordResetEmail (email user code : string)
| NewPasswordEmail (email user password : string).

(** A signed token: the payload that was signed and the secret used. *)
Record JWT := {
  jwtPayload : JsObject;
  jwtSecret : string;
}.

(** [interface ApiResponse]: [status] and the keys the class puts in
    [response]. *)
Record ApiResponse := {
  status : Z;
  message : option string;
  accessToken : option JWT;
  refreshToken : option JWT;
  verificationToken : option JWT;
  responseUser : option JsObject;
}.

Definition reply (st : Z) (msg : string) : ApiResponse :=
  {| status := st; message := Some msg; accessToken := None;
     refreshToken := None; verificationToken := None; responseUser := None |}.

(** Everything the account manager reads and writes. *)
Record World := {
  Users : gmap string UserObject;
  TokenTable : gmap string Token;
  Bucket : gmap string Image;
  ArticlesUnpublished : gmap string Article;
  ArticlesPublished : gmap string Article;
  Outbox : list Mail;
}.

(** What one call draws from outside the tables. *)
Record Env := {
  now : Z;                 (* Helper.getUNIXTimestamp() at the first read *)
  later : Z;               (* a clock read further down the same call *)
  issuedAt : Z;            (* the clock when a JWT is signed *)
  random : nat → Z;        (* Math.floor(Math.random() * 256), by draw *)
  salt : string;           (* bcrypt.genSalt() *)
  uuid : string;           (* uuidv4() *)
  dbFault : nat → bool;    (* the n-th request to the Users table raises *)
  s3Removed : bool;        (* answer of S3.removeImageFromS3 *)
  s3Saved : bool;          (* answer of S3.saveImage *)
  emailSent : bool;        (* answer of the mailer *)
  tokensDeleted : bool;    (* answer of Tokens.deleteUserTokens *)
  articlesRemoved : ApiResponse; (* answer of Articles.removeAllArticlesByUser *)
}.

Definition setUsers (f : gmap string UserObject → gmap string UserObject) (w : World) : World :=
  {| Users := f (Users w); TokenTable := TokenTable w; Bucket := Bucket w;
     ArticlesUnpublished := ArticlesUnpublished w;
     ArticlesPublished := ArticlesPublished w; Outbox := Outbox w |}.

Definition setTokenTable (f : gmap string Token → gmap string Token) (w : World) : World :=
  {| Users := Users w; TokenTable := f (TokenTable w); Bucket := Bucket w;
     ArticlesUnpublished := ArticlesUnpublished w;
     ArticlesPublished := ArticlesPublished w; Outbox := Outbox w |}.

Definition setBucket (f : gmap string Image → gmap string Image) (w : World) : World :=
  {| Users := Users w; TokenTable := TokenTable w; Bucket := f (Bucket w);
     ArticlesUnpublished := ArticlesUnpublished w;
     ArticlesPublished := ArticlesPublished w; Outbox := Outbox w |}.

Definition setArticles (f : gmap string Article → gmap string Article) (w : World) : World :=
  {| Users := Users w; TokenTable := TokenTable w; Bucket := Bucket w;
     ArticlesUnpublished := f (ArticlesUnpublished w);
     ArticlesPublished := f (ArticlesPublished w); Outbox := Outbox w |}.

Definition setArticlesUnpublished (f : gmap string Article → gmap string Article) (w : World) : World :=
  {| Users := Users w; TokenTable := TokenTable w; Bucket := Bucket w;
     ArticlesUnpublished := f (ArticlesUnpublished w);
     ArticlesPublished := ArticlesPublished w; Outbox := Outbox w |}.

Definition setArticlesPublished (f : gmap string Article → gmap string Article) (w : World) : World :=
  {| Users := Users w; TokenTable := TokenTable w; Bucket := Bucket w;
     ArticlesUnpublished := ArticlesUnpublished w;
     ArticlesPublished := f (ArticlesPublished w); Outbox := Outbox w |}.

Definition pushMail (m : Mail) (w : World) : World :=
  {| Users := Users w; TokenTable := TokenTable w; Bucket := Bucket w;
     ArticlesUnpublished := ArticlesUnpublished w;
     ArticlesPublished := ArticlesPublished w; Outbox := Outbox w ++ [m] |}.

(** ** The state monad of an async method *)

Definition M (A : Type) : Type := World → A * World.

Definition ret {A} (a : A) : M A := λ w, (a, w).
Definition bind {A B} (m : M A) (k : A → M B) : M B :=
  λ w, let '(a, w') := m w in k a w'.
Definition modify (f : World → World) : M unit := λ w, (tt, f w).
Definition gets {A} (f : World → A) : M A := λ w, (f w, w).

Notation "'await' x ← m ; k" := (bind m (λ x, k))
  (at level 10, x name, m at level 99, k at level 200,
   format "'[v' 'await'  x  ←  m ;  '/' k ']'").

(** ** Collaborators whose classes are imported by [UserManagment] *)

Module Tokens.

(** Modelled from the spec: class [Tokens] is imported from ['./tokens'];
    "create(token): persists a Token; overwrites any prior entry with
    the same Value". *)
Definition createToken (token : Token) : M unit :=
  modify (setTokenTable (insert (value token) token)).

(** Modelled from the spec: "get(value) -> Token | none". *)
Definition getToken (code : string) : M (option Token) :=
  gets (λ w, TokenTable w !! code).

(** Modelled from the spec: "delete(value)". *)
Definition deleteToken (code : string) : M unit :=
  modify (setTokenTable (delete code)).

(** Modelled from the spec: "deleteAllForUser(username) -> bool: removes
    every token owned by the user; [...] reports success/failure as a
    whole".  [ok] is the answer; on failure the table is left as it is. *)
Definition deleteUserTokens (ok : bool) (user : string) : M bool :=
  if ok then
    await _ ← modify (setTokenTable (filter (λ kv, username kv.2 ≠ user)));
    ret true
  else ret false.

End Tokens.

Module S3.

(** Modelled from the spec: class [S3] is imported from ['./s3'];
    "remove(id) -> bool". *)
Definition removeImageFromS3 (ok : bool) (id : string) : M bool :=
  if ok then await _ ← modify (setBucket (delete id)); ret true
  else ret false.

(** Modelled from the spec: "store(id, imageData, width, height) -> bool". *)
Definition saveImage (ok : bool) (id file : string) (width height : Z) : M bool :=
  if ok then
    await _ ← modify (setBucket (insert id
        {| imageFile := file; imageWidth := width; imageHeight := height |}));
    ret true
  else ret false.

End S3.

Module Email.

(** Modelled from the spec: class [Email] is imported from ['./Email'];
    each send "returns a delivery success indicator". *)
Definition send (ok : bool) (m : Mail) : M bool :=
  if ok then await _ ← modify (pushMail m); ret true
  else ret false.

(** Modelled from the spec: "sendEmailChangeVerification(...)",
    "sendPasswordReset(...)", "sendNewPassword(...)". *)
Definition sendEmailChangeVerificationEmail ok email user code :=
  send ok (EmailChangeVerificationEmail email user code).
Definition sendPasswordResetEmail ok email user code :=
  send ok (PasswordResetEmail email user code).
Definition sendNewPasswordEmail ok email user password :=
  send ok (NewPasswordEmail email user password).

(** Modelled from the spec: "sendVerification(email, username, code)". *)
Definition sendAccountVerificationEmail ok email user code :=
  send ok (AccountVerificationEmail email user code).

End Email.

Module Articles.

(** Modelled from the spec: class [Articles] is imported from
    ['./articles']; "removeAllByUser(username) -> result".  [answer] is
    the result; with status 200 the author's rows are gone from both
    collections. *)
Definition removeAllArticlesByUser (answer : ApiResponse) (user : string) : M ApiResponse :=
  if status answer =? 200 then
    await _ ← modify (setArticles (filter (λ kv, Author kv.2 ≠ user)));
    ret answer
  else ret answer.

End Articles.

(** ** Class [UserManagment] *)

(** The fields [updateUser] accepts (its [allowedFields]) with values of
    the types [UserObject] gives them.  [SetEmail None] is the call
    [updateUser(username, 'Email', undefined)], which [verifyEmailChange]
    makes for a token that carries no [newEmail]. *)
Inductive FieldUpdate :=
| SetEmail (v : option string)
| SetPassword (v : string)
| SetProfilePic (v : string)
| SetProfilePicChange (v : Z)
| SetCanPost (v : string)
| SetAdmin (v : string)
| SetLiked (v : list string)
| SetVerified (v : string)
| SetLastPasswordChange (v : Z)
| SetLastEmailChange (v : Z).

Definition fieldName (upd : FieldUpdate) : string :=
  match upd with
  | SetEmail _ => "Email"
  | SetPassword _ => "Password"
  | SetProfilePic _ => "ProfilePic"
  | SetProfilePicChange _ => "ProfilePicChange"
  | SetCanPost _ => "CanPost"
  | SetAdmin _ => "Admin"
  | SetLiked _ => "Liked"
  | SetVerified _ => "Verified"
  | SetLastPasswordChange _ => "LastPasswordChange"
  | SetLastEmailChange _ => "LastEmailChange"
  end.

Definition fieldValue (upd : FieldUpdate) : JsValue :=
  match upd with
  | SetEmail (Some v) => JString v
  | SetEmail None => JUndefined
  | SetPassword v | SetProfilePic v | SetCanPost v | SetAdmin v | SetVerified v => JString v
  | SetProfilePicChange v | SetLastPasswordChange v | SetLastEmailChange v => JNumber v
  | SetLiked v => JArray v
  end.

(** [SET #field = :newVal] on a row. *)
Definition applyUpdate (upd : FieldUpdate) (u : UserObject) : UserObject :=
  {| Username := Username u;
     Password := match upd with SetPassword v => v | _ => Password u end;
     Email := match upd with SetEmail (Some v) => v | _ => Email u end;
     Admin := match upd with SetAdmin v => v | _ => Admin u end;
     CanPost := match upd with SetCanPost v => v | _ => CanPost u end;
     Verified := match upd with SetVerified v => v | _ => Verified u end;
     LastPasswordChange :=
       match upd with SetLastPasswordChange v => v | _ => LastPasswordChange u end;
     LastEmailChange :=
       match upd with SetLastEmailChange v => v | _ => LastEmailChange u end;
     Liked := match upd with SetLiked v => v | _ => Liked u end;
     ProfilePic := match upd with SetProfilePic v => v | _ => ProfilePic u end;
     ProfilePicChange :=
       match upd with SetProfilePicChange v => PicAt v | _ => ProfilePicChange u end;
     AccountCreated := AccountCreated u |}.

Definition allowedFields : list string :=
  ["Email"; "Password"; "ProfilePic"; "ProfilePicChange"; "CanPost"; "Admin";
   "Liked"; "Verified"; "LastPasswordChange"; "LastEmailChange"]%string.

(** The JavaScript object [unmarshall] returns for a row. *)
Definition toObject (u : UserObject) : JsObject :=
  <["Username" := JString (Username u)]>
  (<["Password" := JString (Password u)]>
  (<["Email" := JString (Email u)]>
  (<["Admin" := JString (Admin u)]>
  (<["CanPost" := JString (CanPost u)]>
  (<["Verified" := JString (Verified u)]>
  (<["LastPasswordChange" := JNumber (LastPasswordChange u)]>
  (<["LastEmailChange" := JNumber (LastEmailChange u)]>
  (<["Liked" := JArray (Liked u)]>
  (<["ProfilePic" := JString (ProfilePic u)]>
  (<["ProfilePicChange" :=
       match ProfilePicChange u with PicNull => JString "null" | PicAt t => JNumber t end]>
  (<["AccountCreated" := JNumber (AccountCreated u)]> ∅))))))))))).

(** [delete user.Password; delete user.Liked; delete user.VerificationCode]. *)
Definition deleteSensitive (user : JsObject) : JsObject :=
  delete "VerificationCode" (delete "Liked" (delete "Password" user)).

Definition profilePicCooldown : Z := 7 * 24 * 60 * 60.

(** [checkProfilePictureCooldown(timestamp)], with [currentTime] the
    clock it reads.  For ['null'] the left operand of [&&] is false. *)
Definition checkProfilePictureCooldown (currentTime : Z) (timestamp : PicChange) : bool :=
  if match timestamp with
     | PicNull => false
     | PicAt t => currentTime - t <? profilePicCooldown
     end
  then false else true.

Definition checkCanPost (user : UserObject) : bool :=
  if String.eqb (Admin user) "true" then true
  else if String.eqb (CanPost user) "true" then true
  else false.

(** The token object [createUser] stores for a new account. *)
Definition registrationToken (user verificationCode : string) : Token :=
  {| username := user; value := verificationCode; type := "email_verification";
     expiration := 0; newEmail := None |}.

(** The same token with another [expiration]. *)
Definition withExpiration (x : Z) (tok : Token) : Token :=
  {| username := username tok; value := value tok; type := type tok;
     expiration := x; newEmail := newEmail tok |}.

Definition repoint (newLink : string) (a : Article) : Article :=
  {| Author := Author a; AuthorProfilePic := newLink |}.

(** [queryArticles(tableName)]: the ids of the rows whose [Author] is
    [user]. *)
Definition queryArticles (table : gmap string Article) (user : string) : list string :=
  (map_to_list (filter (λ kv, Author kv.2 = user) table)).*1.

(** [updateArticles(tableName, articles)]: one [UpdateItemCommand] per
    item with a truthy id. *)
Definition updateArticles (articles : list string) (newLink : string)
    (table : gmap string Article) : gmap string Article :=
  foldr (λ id t, if truthy id then alter (repoint newLink) id t else t) table articles.

(** ** Registration, the request gate and what the methods keep *)

(** [\s] of a JavaScript regular expression, on code units below 256: a
    string here is the sequence of its UTF-16 code units, and the
    development covers strings whose code units are all below 256. *)
Definition isSpace (c : ascii) : bool :=
  let n := N_of_ascii c in
  ((9 <=? n) && (n <=? 13) || (n =? 32) || (n =? 160))%N.

(** The class [[^\s@]]. *)
Definition isEmailChar (c : ascii) : bool :=
  negb (isSpace c || Ascii.eqb c "@").

Fixpoint allChars (f : ascii → bool) (s : string) : bool :=
  match s with
  | EmptyString => true
  | String c s' => f c && allChars f s'
  end.

(** Some dot of [s] has a character after it. *)
Fixpoint hasDotBeforeLast (s : string) : bool :=
  match s with
  | String c (String _ _ as tl) => Ascii.eqb c "." || hasDotBeforeLast tl
  | _ => false
  end.

(** Some dot of [s] has a character before it and a character after it. *)
Definition hasInnerDot (s : string) : bool :=
  match s with
  | String _ tl => hasDotBeforeLast tl
  | EmptyString => false
  end.

(** [isValidEmail(email)]: [/^[^\s@]+@[^\s@]+\.[^\s@]+$/].  The first
    group is the whole run in front of the first character outside the
    class, which has to be the [@]; what follows has to stay inside the
    class up to the end and to hold a dot with a character on each side. *)
Definition isValidEmail (email : string) : bool :=
  let '(loc, rest) := span isEmailChar email in
  negb (String.eqb loc "")
  && match rest with
     | String "@" domain =>
         let '(run, tl) := span isEmailChar domain in
         String.eqb tl "" && hasInnerDot run
     | _ => false
     end.

(** The characters [0-9a-f]. *)
Definition isLowerHex (c : ascii) : bool :=
  let n := N_of_ascii c in
  ((48 <=? n) && (n <=? 57) || (97 <=? n) && (n <=? 102))%N.

(** The class [[^\/]]. *)
Definition notSlash (c : ascii) : bool := negb (Ascii.eqb c "/").

Definition notDot (c : ascii) : bool := negb (Ascii.eqb c ".").

(** The link [createUser] gives every new account. *)
Definition defaultProfilePic : string :=
  "https://project-catalog-storage.s3.us-east-2.amazonaws.com/images/pfp.png".

(** What [jwt.verify] hands to its callback: one of the two errors the
    gate tells apart, or the decoded payload. *)
Inductive VerifyResult :=
| TokenExpiredError
| JsonWebTokenError
| Decoded (user : JsObject).

(** What a middleware does with a request: answer it, or attach an
    identity and call [next()]. *)
Inductive GateResult :=
| Sent (r : ApiResponse)
| Next (user : JsObject).

(** [v == 'false']: a string is compared as it is, an array through its
    [join(',')], and no number, boolean, [null] or [undefined] is loosely
    equal to ['false']. *)
Definition looseEqFalse (v : option JsValue) : bool :=
  match v with
  | Some (JString s) => String.eqb s "false"
  | Some (JArray [s]) => String.eqb s "false"
  | _ => false
  end.

(** Every row of the Users table sits under its own [Username]. *)
Definition keyed (w : World) : Prop :=
  ∀ u row, Users w !! u = Some row → Username row = u.

(** Every token sits under its own [value]. *)
Definition tokensKeyed (w : World) : Prop :=
  ∀ c t, TokenTable w !! c = Some t → value t = c.

(** [row'] is a later state of the account [row]. *)
Definition sameAccount (row row' : UserObject) : Prop :=
  Username row' = Username row
  ∧ AccountCreated row' = AccountCreated row
  ∧ (Verified row = "true"%string → Verified row' = "true"%string).

(** From [w] to [w'] no account appeared, and the accounts that are
    left are later states of the ones that were there. *)
Definition evolves (w w' : World) : Prop :=
  ∀ u row', Users w' !! u = Some row' →
    ∃ row, Users w !! u = Some row ∧ sameAccount row row'.

Definition steady (w w' : World) : Prop :=
  evolves w w' ∧ (tokensKeyed w → tokensKeyed w').

(** Rows and tokens both sit under their own keys. *)
Definition wellKeyed (w : World) : Prop := keyed w ∧ tokensKeyed w.

(** [m] relates every world to the world it leaves. *)
Definition keeps {A} (R : World → World → Prop) (m : M A) : Prop :=
  ∀ w, R w (m w).2.

(** ** A small deployment to run the methods on *)

Module Fixture.

Definition hash (password salt : string) : string := (salt ++ "$" ++ password)%string.
Definition compare (password h : string) : bool := String.eqb h (hash password "salt").
Definition link : string := "https://cdn.example".
Definition key : option string := Some "k1"%string.
Definition refreshKey : option string := None.

Definition defaultPic : string :=
  "https://project-catalog-storage.s3.us-east-2.amazonaws.com/images/pfp.png".

Definition alice : UserObject :=
  {| Username := "alice"; Password := hash "password1" "salt"; Email := "alice@x.com";
     Admin := "false"; CanPost := "true"; Verified := "true";
     LastPasswordChange := 1000; LastEmailChange := 1000; Liked := ["a1"%string];
     ProfilePic := defaultPic; ProfilePicChange := PicNull; AccountCreated := 1000 |}.

(** An account that cannot post: neither flag is ['true']. *)
Definition bob : UserObject :=
  {| Username := "bob"; Password := hash "password2" "salt"; Email := "bob@x.com";
     Admin := "false"; CanPost := "false"; Verified := "true";
     LastPasswordChange := 2000; LastEmailChange := 2000; Liked := [];
     ProfilePic := "https://cdn.example/images/0a1b-2c3d.png";
     ProfilePicChange := PicAt 100; AccountCreated := 50 |}.

(** A fresh account: unverified, picture changed a moment ago. *)
Definition carol : UserObject :=
  {| Username := "carol"; Password := hash "password3" "salt"; Email := "carol@x.com";
     Admin := "false"; CanPost := "true"; Verified := "false";
     LastPasswordChange := 999000; LastEmailChange := 999000; Liked := [];
     ProfilePic := "https://cdn.example/images/4e5f-6a7b.png";
     ProfilePicChange := PicAt 999000; AccountCreated := 999000 |}.

Definition staleEmailChange : Token :=
  {| username := "alice"; value := "c0de1"; type := "email_change";
     expiration := 500; newEmail := Some "alice@new.example"%string |}.
Definition staleReset : Token :=
  {| username := "alice"; value := "c0de2"; type := "password_reset";
     expiration := 500; newEmail := None |}.
Definition liveReset : Token :=
  {| username := "alice"; value := "c0de3"; type := "password_reset";
     expiration := 2000000; newEmail := None |}.
Definition carolCode : Token := registrationToken "carol" "c0de4".

Definition world : World :=
  {| Users := <["alice" := alice]> (<["bob" := bob]> (<["carol" := carol]> ∅));
     TokenTable :=
       <["c0de1" := staleEmailChange]> (<["c0de2" := staleReset]>
       (<["c0de3" := liveReset]> (<["c0de4" := carolCode]> ∅)));
     Bucket := <["0a1b-2c3d" := {| imageFile := "old"; imageWidth := 350; imageHeight := 350 |}]> ∅;
     ArticlesUnpublished :=
       <["a2" := {| Author := "bob"; AuthorProfilePic := ProfilePic bob |}]> ∅;
     ArticlesPublished :=
       <["a1" := {| Author := "bob"; AuthorProfilePic := ProfilePic bob |}]>
       (<["a3" := {| Author := "alice"; AuthorProfilePic := defaultPic |}]> ∅);
     Outbox := [] |}.

(** Every collaborator answers; each random byte is [0xab]. *)
Definition env : Env :=
  {| now := 1000000; later := 1000000; issuedAt := 1000000;
     random := λ _, 171; salt := "salt"; uuid := "9f8e-7d6c";
     dbFault := λ _, false; s3Removed := true; s3Saved := true;
     emailSent := true; tokensDeleted := true;
     articlesRemoved := reply 200 "articles removed" |}.

(** As [env], with the mailer failing. *)
Definition envNoMail : Env :=
  {| now := 1000000; later := 1000000; issuedAt := 1000000;
     random := λ _, 171; salt := "salt"; uuid := "9f8e-7d6c";
     dbFault := λ _, false; s3Removed := true; s3Saved := true;
     emailSent := false; tokensDeleted := true;
     articlesRemoved := reply 200 "articles removed" |}.

(** As [env], with [S3.saveImage] failing. *)
Definition envNoSave : Env :=
  {| now := 1000000; later := 1000000; issuedAt := 1000000;
     random := λ _, 171; salt := "salt"; uuid := "9f8e-7d6c";
     dbFault := λ _, false; s3Removed := true; s3Saved := false;
     emailSent := true; tokensDeleted := true;
     articlesRemoved := reply 200 "articles removed" |}.

(** As [env], with the second request to the Users table raising. *)
Definition envStampFault : Env :=
  {| now := 1000000; later := 1000000; issuedAt := 1000000;
     random := λ _, 171; salt := "salt"; uuid := "9f8e-7d6c";
     dbFault := λ n, (n =? 1)%nat; s3Removed := true; s3Saved := true;
     emailSent := true; tokensDeleted := true;
     articlesRemoved := reply 200 "articles removed" |}.

(** As [env], with the article service refusing. *)
Definition envArticlesFail : Env :=
  {| now := 1000000; later := 1000000; issuedAt := 1000000;
     random := λ _, 171; salt := "salt"; uuid := "9f8e-7d6c";
     dbFault := λ _, false; s3Removed := true; s3Saved := true;
     emailSent := true; tokensDeleted := true;
     articlesRemoved := reply 500 "server error" |}.

End Fixture.

(** ** Further environments for the same deployment *)

Module Scenario.

(** As [Fixture.env], with the first request to the Users table raising. *)
Definition envReadFault : Env :=
  {| now := 1000000; later := 1000000; issuedAt := 1000000;
     random := λ _, 171; salt := "salt"; uuid := "9f8e-7d6c";
     dbFault := λ n, (n =? 0)%nat; s3Removed := true; s3Saved := true;
     emailSent := true; tokensDeleted := true;
     articlesRemoved := reply 200 "articles removed" |}.

(** As [Fixture.env], with the third request to the Users table raising. *)
Definition envThirdFault : Env :=
  {| now := 1000000; later := 1000000; issuedAt := 1000000;
     random := λ _, 171; salt := "salt"; uuid := "9f8e-7d6c";
     dbFault := λ n, (n =? 2)%nat; s3Removed := true; s3Saved := true;
     emailSent := true; tokensDeleted := true;
     articlesRemoved := reply 200 "articles removed" |}.

(** A call a hundred seconds after [Fixture.env]. *)
Definition envSoon : Env :=
  {| now := 1000100; later := 1000100; issuedAt := 1000100;
     random := λ _, 205; salt := "salt"; uuid := "1a2b-3c4d";
     dbFault := λ _, false; s3Removed := true; s3Saved := true;
     emailSent := true; tokensDeleted := true;
     articlesRemoved := reply 200 "articles removed" |}.

(** A call a million seconds after [Fixture.env]. *)
Definition envLate : Env :=
  {| now := 2000000; later := 2000000; issuedAt := 2000000;
     random := λ _, 205; salt := "salt"; uuid := "1a2b-3c4d";
     dbFault := λ _, false; s3Removed := true; s3Saved := true;
     emailSent := true; tokensDeleted := true;
     articlesRemoved := reply 200 "articles removed" |}.

(** A call at second 2500, shortly after bob's last password change. *)
Definition envEarly : Env :=
  {| now := 2500; later := 2500; issuedAt := 2500;
     random := λ _, 171; salt := "salt"; uuid := "9f8e-7d6c";
     dbFault := λ _, false; s3Removed := true; s3Saved := true;
     emailSent := true; tokensDeleted := true;
     articlesRemoved := reply 200 "articles removed" |}.

(** As [Fixture.env], with [Tokens.deleteUserTokens] failing. *)
Definition envTokensFail : Env :=
  {| now := 1000000; later := 1000000; issuedAt := 1000000;
     random := λ _, 171; salt := "salt"; uuid := "9f8e-7d6c";
     dbFault := λ _, false; s3Removed := true; s3Saved := true;
     emailSent := true; tokensDeleted := false;
     articlesRemoved := reply 200 "articles removed" |}.

(** As [Fixture.env], with [S3.removeImageFromS3] failing. *)
Definition envNoRemove : Env :=
  {| now := 1000000; later := 1000000; issuedAt := 1000000;
     random := λ _, 171; salt := "salt"; uuid := "9f8e-7d6c";
     dbFault := λ _, false; s3Removed := false; s3Saved := true;
     emailSent := true; tokensDeleted := true;
     articlesRemoved := reply 200 "articles removed" |}.

(** A verification code that is still around for alice, who is verified. *)
Definition aliceCode : Token := registrationToken "alice" "c0de5".

Definition worldWithAliceCode : World :=
  setTokenTable (insert "c0de5" aliceCode) Fixture.world.

(** The code every call draws under [Fixture.env]: 24 bytes [0xab]. *)
Definition code : string := randomBytesHex 24 (λ _, 171).

End Scenario.

Section UserManagment.

(** bcryptjs and the process configuration. *)
Variable bcrypt_hash : string → string → string.     (* bcrypt.hash(password, salt) *)
Variable bcrypt_compare : string → string → bool.    (* bcrypt.compare(password, hash) *)
Variable AWS_S3_LINK : string.                       (* process.env.AWS_S3_LINK *)
Variable JWT_KEY JWT_REFRESH_KEY : option string.    (* process.env.JWT_KEY, JWT_REFRESH_KEY *)

(** [process.env.X || 'default']. *)
Definition orDefault (v : option string) : string :=
  match v with
  | Some k => if truthy k then k else "default"
  | None => "default"
  end.

(** [jwt.sign(payload, secret, { expiresIn })]: the payload gains [iat]
    and [exp]. *)
Definition sign (payload : JsObject) (secret : string) (expiresIn iat : Z) : JWT :=
  {| jwtPayload := <["exp" := JNumber (iat + expiresIn)]> (<["iat" := JNumber iat]> payload);
     jwtSecret := secret |}.

Definition getAccessJWT (e : Env) (user : JsObject) : JWT :=
  sign user (orDefault JWT_KEY) (30 * 60) (issuedAt e).

Definition getRefreshJWT (e : Env) (user : JsObject) : JWT :=
  sign user (orDefault JWT_REFRESH_KEY) (3 * 24 * 60 * 60) (issuedAt e).

(** [decodeJWT(token)]: the payload part, parsed. *)
Definition decodeJWT (token : JWT) : JsObject := jwtPayload token.

Definition genPassHash (e : Env) (password : string) : string :=
  bcrypt_hash password (salt e).

Definition compareHash (password hash : string) : bool :=
  bcrypt_compare password hash.

(** [getUser(username)]: the row, or [null] when there is none or the
    request raised. *)
Definition getUser (fault : bool) (user : string) : M (option UserObject) :=
  gets (λ w, if fault then None else Users w !! user).

(** [deleteUser(username)]. *)
Definition deleteUser (fault : bool) (user : string) : M ApiResponse :=
  if fault then ret (reply 500 "server error")
  else
    await old ← gets (λ w, Users w !! user);
    match old with
    | None => ret (reply 404 "account not found")
    | Some _ =>
        await _ ← modify (setUsers (delete user));
        ret (reply 200 "account deleted succesfuly")
    end.

(** [updateUser(username, fieldName, fieldValue)].  A request for a key
    with no row answers without [Attributes] and gets 404; every caller
    below has read the row first.  (The stub item DynamoDB would leave
    under such a key is not a [UserObject] and is not kept.) *)
Definition updateUser (fault : bool) (user : string) (upd : FieldUpdate) : M ApiResponse :=
  if negb (existsb (String.eqb (fieldName upd)) allowedFields) then
    ret (reply 400 "Disallowed field")
  else
    match fieldValue upd with
    | JUndefined => ret (reply 400 "Unsupported data type")
    | _ =>
        if fault then ret (reply 500 "Internal server error")
        else
          await old ← gets (λ w, Users w !! user);
          match old with
          | None => ret (reply 404 "User not found")
          | Some row =>
              await _ ← modify (setUsers (insert user (applyUpdate upd row)));
              ret (reply 200 "Item updated successfully")
          end
    end.

(** [verifyUser(username, password)]. *)
Definition verifyUser (e : Env) (user password : string) : M ApiResponse :=
  await row ← getUser (dbFault e 0) user;
  match row with
  | None => ret (reply 401 "invalid login credentials")
  | Some row =>
      let verified := compareHash password (Password row) in
      if negb verified then ret (reply 401 "invalid login credentials")
      else
        let claims := deleteSensitive (toObject row) in
        let token := getAccessJWT e claims in
        let refresh := getRefreshJWT e claims in
        ret {| status := 200; message := None;
               accessToken := Some token; refreshToken := Some refresh;
               verificationToken := None;
               responseUser := Some (decodeJWT token) |}
  end.

(** [verifyEmail(verificationCode)]. *)
Definition verifyEmail (e : Env) (verificationCode : string) : M ApiResponse :=
  await token ← Tokens.getToken verificationCode;
  match token with
  | Some token =>
      if String.eqb (type token) "email_verification" then
        let user := username token in
        await row ← getUser (dbFault e 0) user;
        match row with
        | Some row =>
            if String.eqb (Verified row) "false" then
              await updateRes ← updateUser (dbFault e 1) user (SetVerified "true");
              if status updateRes =? 200 then
                await _ ← Tokens.deleteToken verificationCode;
                ret (reply 200 "email verified")
              else ret (reply 500 "server error")
            else ret (reply 410 "account already verified")
        | None => ret (reply 404 "user not found")
        end
      else ret (reply 404 "invalid or expired verification code")
  | None => ret (reply 404 "invalid or expired verification code")
  end.

(** [verifyEmailChange(token)]. *)
Definition verifyEmailChange (e : Env) (token : string) : M ApiResponse :=
  await storedToken ← Tokens.getToken token;
  match storedToken with
  | None => ret (reply 410 "Verification token is invalid or has expired.")
  | Some storedToken =>
      if negb (String.eqb (type storedToken) "email_change")
         || (expiration storedToken <? now e)
      then ret (reply 410 "Verification token is invalid or has expired.")
      else
        let user := username storedToken in
        let newEmail := newEmail storedToken in
        await row ← getUser (dbFault e 0) user;
        match row with
        | None => ret (reply 404 "User not found.")
        | Some _ =>
            await updateResponse ← updateUser (dbFault e 1) user (SetEmail newEmail);
            if negb (status updateResponse =? 200) then ret updateResponse
            else
              await _ ← Tokens.deleteToken token;
              ret (reply 200 "Email address successfully updated.")
        end
  end.

(** [requestEmailChange(username, password, newEmail)]. *)
Definition requestEmailChange (e : Env) (user password newEmail : string) : M ApiResponse :=
  let currentTime := now e in
  await row ← getUser (dbFault e 0) user;
  match row with
  | None => ret (reply 404 "User not found.")
  | Some row =>
      if currentTime <? LastEmailChange row + 3 * 60 * 60 then
        ret (reply 429 "you have requested an email change recently. Please try again later.")
      else
        let isPasswordValid := compareHash password (Password row) in
        if negb isPasswordValid then ret (reply 401 "Invalid password.")
        else
          let verificationTokenValue := randomBytesHex 24 (random e) in
          let token :=
            {| username := user; value := verificationTokenValue;
               type := "email_change"; newEmail := Some newEmail;
               expiration := later e + 6 * 3600 |} in
          await _ ← Tokens.createToken token;
          await _ ← Email.sendEmailChangeVerificationEmail (emailSent e)
                      newEmail user verificationTokenValue;
          await _ ← updateUser (dbFault e 1) (Username row) (SetLastEmailChange currentTime);
          let row := applyUpdate (SetLastPasswordChange currentTime) row in
          let verificationToken := getAccessJWT e (toObject row) in
          ret {| status := 200;
                 message := Some "Verification email sent to new email address.";
                 accessToken := Some verificationToken; refreshToken := None;
                 verificationToken := None;
                 responseUser := Some (decodeJWT verificationToken) |}
  end.

(** [sendPasswordResetEmail(username)]. *)
Definition sendPasswordResetEmail (e : Env) (user : string) : M ApiResponse :=
  let currentTime := now e in
  await row ← getUser (dbFault e 0) user;
  match row with
  | None => ret (reply 404 "user not found")
  | Some row =>
      if negb (String.eqb (Verified row) "true") then
        ret (reply 403 "user is not verified")
      else if currentTime <? LastPasswordChange row + 60 * 15 then
        ret (reply 429 "you have requested a password reset recently. Please try again later.")
      else
        let resetTokenValue := randomBytesHex 24 (random e) in
        let resetToken :=
          {| username := user; value := resetTokenValue; type := "password_reset";
             expiration := currentTime + 6 * 3600; newEmail := None |} in
        await _ ← Tokens.createToken resetToken;
        await _ ← Email.sendPasswordResetEmail (emailSent e) (Email row) user resetTokenValue;
        await _ ← updateUser (dbFault e 1) (Username row) (SetLastPasswordChange currentTime);
        let row := applyUpdate (SetLastPasswordChange currentTime) row in
        let verificationToken := getAccessJWT e (toObject row) in
        ret {| status := 200; message := Some "password reset email sent.";
               accessToken := Some verificationToken; refreshToken := None;
               verificationToken := None;
               responseUser := Some (decodeJWT verificationToken) |}
  end.

(** The password [resetPassword] generates. *)
Definition generatedPassword (e : Env) (user : string) : string :=
  (user ++ randomBytesHex 8 (random e))%string.

(** [resetPassword(verificationCode)]. *)
Definition resetPassword (e : Env) (verificationCode : string) : M ApiResponse :=
  await token ← Tokens.getToken verificationCode;
  match token with
  | Some token =>
      if String.eqb (type token) "password_reset" then
        let currentTimestamp := now e in
        if expiration token <? currentTimestamp then
          await _ ← Tokens.deleteToken verificationCode;
          ret (reply 410 "Verification code has expired. Please request a new password reset.")
        else
          let user := username token in
          await row ← getUser (dbFault e 0) user;
          match row with
          | Some row =>
              let newPassword := generatedPassword e user in
              let hashedPassword := genPassHash e newPassword in
              await updateRes ← updateUser (dbFault e 1) user (SetPassword hashedPassword);
              if status updateRes =? 200 then
                await _ ← Tokens.deleteToken verificationCode;
                await _ ← Email.sendNewPasswordEmail (emailSent e) (Email row) user newPassword;
                ret (reply 200 "Password reset successful. Please check your email for the new password.")
              else ret (reply 500 "Server error. Please try again later.")
          | None => ret (reply 404 "User not found.")
          end
      else ret (reply 404 "Invalid or expired verification code.")
  | None => ret (reply 404 "Invalid or expired verification code.")
  end.

(** [deleteUserAccount(username, password)].  [match(...)[1]] on a
    picture link the expression does not match raises inside the [try]. *)
Definition deleteUserAccount (e : Env) (user password : string) : M ApiResponse :=
  await row ← getUser (dbFault e 0) user;
  match row with
  | None => ret (reply 404 "user not found.")
  | Some row =>
      let verified := compareHash password (Password row) in
      if negb verified then ret (reply 403 "invalid password.")
      else
        match matchImageId (ProfilePic row) with
        | None => ret (reply 500 "Server error while deleting user account.")
        | Some id =>
            await removeProfilePicRes ←
              (if negb (String.eqb id "pfp") then S3.removeImageFromS3 (s3Removed e) id
               else ret true);
            if negb removeProfilePicRes then ret (reply 500 "server error")
            else
              await tokenResponse ← Tokens.deleteUserTokens (tokensDeleted e) user;
              if negb tokenResponse then ret (reply 500 "server error")
              else
                await removeArticlesResponse ←
                  Articles.removeAllArticlesByUser (articlesRemoved e) user;
                if negb (status removeArticlesResponse =? 200) then
                  ret removeArticlesResponse
                else deleteUser (dbFault e 1) user
        end
  end.

(** [changeProfilePic(username, file)]. *)
Definition changeProfilePic (e : Env) (user file : string) : M ApiResponse :=
  await row ← getUser (dbFault e 0) user;
  match row with
  | None => ret (reply 404 "user not found")
  | Some row =>
      let timestamp := now e in
      if negb (checkProfilePictureCooldown (later e) (ProfilePicChange row)) then
        ret (reply 403 "the user profile picture was changed in the last week")
      else
        await userEditRes ←
          updateUser (dbFault e 1) (Username row) (SetProfilePicChange timestamp);
        if negb (status userEditRes =? 200) then ret userEditRes
        else
          let row := applyUpdate (SetProfilePicChange timestamp) row in
          await _ ←
            match matchOldImageId (ProfilePic row) with
            | Some oldImageId => S3.removeImageFromS3 (s3Removed e) oldImageId
            | None => ret true
            end;
          let imageId := uuid e in
          let row :=
            applyUpdate
              (SetProfilePic (AWS_S3_LINK ++ "/images/" ++ imageId ++ ".png")%string) row in
          await response ← S3.saveImage (s3Saved e) imageId file 350 350;
          if negb response then ret (reply 500 "server error")
          else
            await _ ←
              (if truthy (Admin row) || truthy (CanPost row) then
                 await privateArticles ←
                   gets (λ w, queryArticles (ArticlesUnpublished w) (Username row));
                 await publicArticles ←
                   gets (λ w, queryArticles (ArticlesPublished w) (Username row));
                 await _ ← modify (setArticlesUnpublished
                                     (updateArticles privateArticles (ProfilePic row)));
                 modify (setArticlesPublished
                           (updateArticles publicArticles (ProfilePic row)))
               else ret tt);
            await result ← updateUser (dbFault e 2) user (SetProfilePic (ProfilePic row));
            let claims := deleteSensitive (toObject row) in
            ret {| status := status result; message := message result;
                   accessToken := accessToken result;
                   refreshToken := refreshToken result;
                   verificationToken := Some (getAccessJWT e claims);
                   responseUser := Some claims |}
  end.

(** The link [changeProfilePic] builds for the new picture. *)
Definition newPictureLink (e : Env) : string :=
  (AWS_S3_LINK ++ "/images/" ++ uuid e ++ ".png")%string.

(** The world once the stamp is written and the old picture, when the
    link names one, has been asked away. *)
Definition afterStamp (e : Env) (user : string) (row : UserObject) (w : World) : World :=
  let w1 := setUsers (insert user (applyUpdate (SetProfilePicChange (now e)) row)) w in
  match matchOldImageId (ProfilePic row) with
  | Some oldImageId => if s3Removed e then setBucket (delete oldImageId) w1 else w1
  | None => w1
  end.

(** The two article tables after the cascade. *)
Definition repointArticles (user link : string) (w : World) : World :=
  setArticlesPublished (updateArticles (queryArticles (ArticlesPublished w) user) link)
    (setArticlesUnpublished
       (updateArticles (queryArticles (ArticlesUnpublished w) user) link) w).

(** [createUser(username, password, email, canPost, admin)]; the callers
    that leave [canPost] and [admin] out get ['true'] and ['false'].  The
    object literal reads the clock three times: [now e], [later e] and
    [clock3]. *)
Definition createUser (e : Env) (clock3 : Z) (user password email canPost admin : string)
    : M ApiResponse :=
  if negb (isValidEmail email) then ret (reply 400 "invalid email address")
  else if (String.length password <? 8)%nat then
    ret (reply 400 "password must be at least 8 characters long")
  else
    await existing ← getUser (dbFault e 0) user;
    match existing with
    | Some _ => ret (reply 400 "username is already in use")
    | None =>
        let password := genPassHash e password in
        let userObject :=
          {| Username := user; Password := password; Email := email; Admin := admin;
             Liked := []; CanPost := canPost; ProfilePic := defaultProfilePic;
             ProfilePicChange := PicNull; AccountCreated := now e;
             Verified := "false"; LastPasswordChange := later e;
             LastEmailChange := clock3 |} in
        if dbFault e 1 then ret (reply 500 "server error")
        else
          await _ ← modify (setUsers (insert user userObject));
          let verificationCode := randomBytesHex 24 (random e) in
          let token := registrationToken user verificationCode in
          await _ ← Tokens.createToken token;
          await _ ← Email.sendAccountVerificationEmail (emailSent e)
                      email user verificationCode;
          ret (reply 200 "user created successfully")
    end.

(** [changePassword(username, oldPassword, newPassword)]. *)
Definition changePassword (e : Env) (user oldPassword newPassword : string) : M ApiResponse :=
  await row ← getUser (dbFault e 0) user;
  match row with
  | None => ret (reply 404 "User not found.")
  | Some row =>
      let isPasswordValid := compareHash oldPassword (Password row) in
      if negb isPasswordValid then ret (reply 401 "The old password is invalid.")
      else if (String.length newPassword <? 8)%nat then
        ret (reply 400 "New password must be at least 8 characters long.")
      else
        let hashedNewPassword := genPassHash e newPassword in
        await updateResponse ← updateUser (dbFault e 1) user (SetPassword hashedNewPassword);
        if negb (status updateResponse =? 200) then ret updateResponse
        else
          let currentTimestamp := now e in
          await timestampUpdateResponse ←
            updateUser (dbFault e 2) user (SetLastPasswordChange currentTimestamp);
          if negb (status timestampUpdateResponse =? 200) then ret timestampUpdateResponse
          else ret (reply 200 "Password changed successfully.")
  end.

(** [jwt.verify(token, secret, callback)] of jsonwebtoken, with [clock]
    the time of the check: a token signed with another secret is invalid;
    an [exp] that is not a number is invalid; a token is expired from the
    second [exp] on. *)
Definition jwtVerify (clock : Z) (token : JWT) (secret : string) : VerifyResult :=
  if negb (String.eqb (jwtSecret token) secret) then JsonWebTokenError
  else
    match jwtPayload token !! "exp" with
    | None => Decoded (jwtPayload token)
    | Some (JNumber exp) =>
        if exp <=? clock then TokenExpiredError else Decoded (jwtPayload token)
    | Some _ => JsonWebTokenError
    end.

(** [authenticateToken(requireVerified)] on a request whose [token]
    cookie is [token]. *)
Definition authenticateToken (requireVerified : bool) (clock : Z) (token : option JWT)
    : GateResult :=
  match token with
  | None => Sent (reply 400 "missing authentication token")
  | Some token =>
      match jwtVerify clock token (orDefault JWT_KEY) with
      | TokenExpiredError => Sent (reply 401 "token expired")
      | JsonWebTokenError => Sent (reply 403 "invalid token")
      | Decoded user =>
          if requireVerified && looseEqFalse (user !! "Verified") then
            Sent (reply 403 "account not verified")
          else Next user
      end
  end.

(** [authTokenOptional]. *)
Definition authTokenOptional (clock : Z) (token : option JWT) : GateResult :=
  match token with
  | None => Next ∅
  | Some token =>
      match jwtVerify clock token (orDefault JWT_KEY) with
      | TokenExpiredError => Sent (reply 401 "token expired")
      | JsonWebTokenError => Sent (reply 403 "invalid token")
      | Decoded user => Next user
      end
  end.

(** The row [createUser] writes. *)
Definition registeredRow (e : Env) (clock3 : Z) (user password email canPost admin : string)
    : UserObject :=
  {| Username := user; Password := genPassHash e password; Email := email; Admin := admin;
     Liked := []; CanPost := canPost; ProfilePic := defaultProfilePic;
     ProfilePicChange := PicNull; AccountCreated := now e;
     Verified := "false"; LastPasswordChange := later e;
     LastEmailChange := clock3 |}.

(** The verification code [createUser] draws. *)
Definition registrationCode (e : Env) : string := randomBytesHex 24 (random e).

(** ** Running a method *)

Ltac run :=
  unfold bind, ret, gets, modify, getUser, Tokens.getToken, Tokens.deleteToken,
    Tokens.createToken; simpl.

Lemma updateUser_found fault user upd w row :
  Users w !! user = Some row →
  fieldValue upd ≠ JUndefined →
  updateUser fault user upd w =
    if fault then (reply 500 "Internal server error", w)
    else (reply 200 "Item updated successfully",
          setUsers (insert user (applyUpdate upd row)) w).
Proof.
  intros Hrow Hval. unfold updateUser.
  assert (existsb (String.eqb (fieldName upd)) allowedFields = true) as ->
    by (destruct upd; reflexivity).
  simpl. destruct (fieldValue upd); try congruence;
    destruct fault; try reflexivity; run; by rewrite Hrow.
Qed.

(** Claim C7.  A stored token whose [type] is not the one the method
    expects is never applied: for every world and every token stored
    under the code, [verifyEmail] answers 404 unless the type is
    ['email_verification'], [verifyEmailChange] answers 410 unless it is
    ['email_change'], and [resetPassword] answers 404 unless it is
    ['password_reset']; in each case the world that comes back is the
    world that went in, so no user row (and no token) is mutated. *)
Theorem wrong_type_token_never_applied e code w tok :
  TokenTable w !! code = Some tok →
  (type tok ≠ "email_verification"%string →
     verifyEmail e code w = (reply 404 "invalid or expired verification code", w))
  ∧ (type tok ≠ "email_change"%string →
     verifyEmailChange e code w
     = (reply 410 "Verification token is invalid or has expired.", w))
  ∧ (type tok ≠ "password_reset"%string →
     resetPassword e code w = (reply 404 "Invalid or expired verification code.", w)).
Proof.
  intros Htok. repeat split; intros Hty.
  - unfold verifyEmail. run. rewrite Htok.
    apply String.eqb_neq in Hty. by rewrite Hty.
  - unfold verifyEmailChange. run. rewrite Htok.
    apply String.eqb_neq in Hty. by rewrite Hty.
  - unfold resetPassword. run. rewrite Htok.
    apply String.eqb_neq in Hty. by rewrite Hty.
Qed.

Lemma resetPassword_expired e code w tok :
  TokenTable w !! code = Some tok →
  type tok = "password_reset"%string →
  expiration tok < now e →
  resetPassword e code w
  = (reply 410 "Verification code has expired. Please request a new password reset.",
     setTokenTable (delete code) w).
Proof.
  intros Htok Hty Hexp. unfold resetPassword. run. rewrite Htok, Hty. simpl.
  apply Z.ltb_lt in Hexp. by rewrite Hexp.
Qed.

Lemma verifyEmailChange_expired e code w tok :
  TokenTable w !! code = Some tok →
  type tok = "email_change"%string →
  expiration tok < now e →
  verifyEmailChange e code w
  = (reply 410 "Verification token is invalid or has expired.", w).
Proof.
  intros Htok Hty Hexp. unfold verifyEmailChange. run. rewrite Htok, Hty. simpl.
  apply Z.ltb_lt in Hexp. by rewrite Hexp.
Qed.

Lemma resetPassword_ok e code w tok row :
  TokenTable w !! code = Some tok →
  type tok = "password_reset"%string →
  now e ≤ expiration tok →
  Users w !! username tok = Some row →
  dbFault e 0 = false → dbFault e 1 = false →
  resetPassword e code w
  = (reply 200 "Password reset successful. Please check your email for the new password.",
     let w1 := setUsers (insert (username tok)
                 (applyUpdate
                    (SetPassword (genPassHash e (generatedPassword e (username tok)))) row)) w in
     let w2 := setTokenTable (delete code) w1 in
     if emailSent e then
       pushMail (NewPasswordEmail (Email row) (username tok)
                   (generatedPassword e (username tok))) w2
     else w2).
Proof.
  intros Htok Hty Hexp Hrow Hf0 Hf1. unfold resetPassword. run.
  rewrite Htok, Hty. simpl.
  apply Z.ltb_ge in Hexp. rewrite Hexp, Hf0, Hrow.
  rewrite (updateUser_found _ _ _ _ row), Hf1 by done. simpl.
  unfold Email.sendNewPasswordEmail, Email.send. by destruct (emailSent e).
Qed.

(** Changing the [expiration] of the stored token changes neither the
    answer of [verifyEmail] nor what it does to the Users table. *)
Lemma verifyEmail_expiration_irrelevant e code w tok x :
  let w1 := setTokenTable (insert code tok) w in
  let w2 := setTokenTable (insert code (withExpiration x tok)) w in
  (verifyEmail e code w2).1 = (verifyEmail e code w1).1
  ∧ Users (verifyEmail e code w2).2 = Users (verifyEmail e code w1).2.
Proof.
  unfold verifyEmail. run. rewrite !lookup_insert_eq. simpl.
  destruct (String.eqb (type tok) "email_verification"); simpl; [|done].
  destruct (dbFault e 0); simpl; [done|].
  destruct (Users w !! username tok) as [row|] eqn:Hrow; simpl; [|done].
  destruct (String.eqb (Verified row) "false"); simpl; [|done].
  rewrite !(updateUser_found _ _ _ _ row) by done.
  by destruct (dbFault e 1).
Qed.

(** Claim C10.  [verifyEmail] takes no clock and never reads
    [expiration]: for every stored token of type ['email_verification']
    (its expiration is not constrained, so it may lie strictly in the
    past) whose owner exists with [Verified = 'false'], and with the two
    requests to the Users table answering, the call returns 200, the
    owner's [Verified] becomes ['true'] and the token is deleted. *)
Theorem verifyEmail_ignores_expiration e code w tok row :
  TokenTable w !! code = Some tok →
  type tok = "email_verification"%string →
  Users w !! username tok = Some row →
  Verified row = "false"%string →
  dbFault e 0 = false → dbFault e 1 = false →
  ∃ w',
    verifyEmail e code w = (reply 200 "email verified", w')
    ∧ w' = setTokenTable (delete code)
             (setUsers (insert (username tok) (applyUpdate (SetVerified "true") row)) w)
    ∧ Verified <$> Users w' !! username tok = Some "true"%string
    ∧ TokenTable w' !! code = None.
Proof.
  intros Htok Hty Hrow Hver Hf0 Hf1. eexists. split; [|split; [reflexivity|]].
  - unfold verifyEmail. run. rewrite Htok, Hty. simpl.
    rewrite Hf0, Hrow, Hver. simpl.
    rewrite (updateUser_found _ _ _ _ row), Hf1 by done. reflexivity.
  - simpl. by rewrite lookup_insert_eq, lookup_delete_eq.
Qed.

Lemma deleteSensitive_lookup (obj : JsObject) k :
  k = "Password"%string ∨ k = "Liked"%string →
  deleteSensitive obj !! k = None.
Proof.
  unfold deleteSensitive. intros [-> | ->].
  - rewrite !lookup_delete_ne by done. apply lookup_delete_eq.
  - rewrite lookup_delete_ne by done. apply lookup_delete_eq.
Qed.

Lemma sign_lookup (payload : JsObject) secret ttl iat k :
  k = "Password"%string ∨ k = "Liked"%string →
  jwtPayload (sign payload secret ttl iat) !! k = payload !! k.
Proof. unfold sign. simpl. intros [-> | ->]; by rewrite !lookup_insert_ne. Qed.

(** Claim C6.  [verifyUser] gives the same result, status 401 with the
    message ['invalid login credentials'] and an unchanged world, when
    the username has no row and when the password does not match the
    stored hash.  On success the payload of the access token, the
    payload of the refresh token and the decoded claims returned under
    [user] have neither a [Password] nor a [Liked] key. *)
Theorem verifyUser_uniform_failure_and_stripped_claims e user password w :
  ((Users w !! user = None
    ∨ ∃ row, Users w !! user = Some row ∧ compareHash password (Password row) = false) →
   verifyUser e user password w = (reply 401 "invalid login credentials", w))
  ∧ (∀ row,
       dbFault e 0 = false →
       Users w !! user = Some row →
       compareHash password (Password row) = true →
       ∃ token refresh claims,
         verifyUser e user password w
         = ({| status := 200; message := None;
               accessToken := Some token; refreshToken := Some refresh;
               verificationToken := None; responseUser := Some claims |}, w)
         ∧ ∀ k, k = "Password"%string ∨ k = "Liked"%string →
             jwtPayload token !! k = None
             ∧ jwtPayload refresh !! k = None
             ∧ claims !! k = None).
Proof.
  split.
  - intros H. unfold verifyUser. run. destruct (dbFault e 0); [done|].
    destruct H as [-> | (row & -> & Hc)]; [done|]. by rewrite Hc.
  - intros row Hf Hrow Hc. do 3 eexists. split.
    + unfold verifyUser. run. rewrite Hf, Hrow, Hc. reflexivity.
    + intros k Hk. unfold decodeJWT, getAccessJWT, getRefreshJWT.
      rewrite !sign_lookup by done.
      pose proof (sign_lookup (deleteSensitive (toObject row))
                    (orDefault JWT_KEY) (30 * 60) (issuedAt e) k Hk) as Hs.
      simpl in Hs. rewrite Hs. by rewrite deleteSensitive_lookup.
Qed.

Lemma changeProfilePic_cooldown e user file w row :
  Users w !! user = Some row →
  dbFault e 0 = false →
  checkProfilePictureCooldown (later e) (ProfilePicChange row) = false →
  changeProfilePic e user file w
  = (reply 403 "the user profile picture was changed in the last week", w).
Proof.
  intros Hrow Hf0 Hcool. unfold changeProfilePic. run.
  by rewrite Hf0, Hrow, Hcool.
Qed.

Lemma changeProfilePic_stamp_fault e user file w row :
  Users w !! user = Some row →
  Username row = user →
  dbFault e 0 = false →
  checkProfilePictureCooldown (later e) (ProfilePicChange row) = true →
  dbFault e 1 = true →
  changeProfilePic e user file w = (reply 500 "Internal server error", w).
Proof.
  intros Hrow Hname Hf0 Hcool Hf1. unfold changeProfilePic. run.
  rewrite Hf0, Hrow, Hcool, Hname. simpl.
  by rewrite (updateUser_found _ _ _ _ row), Hf1.
Qed.

Lemma afterStamp_Users e user row w :
  Users (afterStamp e user row w)
  = <[user := applyUpdate (SetProfilePicChange (now e)) row]> (Users w).
Proof.
  unfold afterStamp. destruct (matchOldImageId _); [destruct (s3Removed e)|]; done.
Qed.

Lemma changeProfilePic_save_fault e user file w row :
  Users w !! user = Some row →
  Username row = user →
  dbFault e 0 = false →
  checkProfilePictureCooldown (later e) (ProfilePicChange row) = true →
  dbFault e 1 = false →
  s3Saved e = false →
  changeProfilePic e user file w = (reply 500 "server error", afterStamp e user row w).
Proof.
  intros Hrow Hname Hf0 Hcool Hf1 Hs3. unfold changeProfilePic. run.
  rewrite Hf0, Hrow, Hcool, Hname. simpl.
  rewrite (updateUser_found _ _ _ _ row), Hf1 by done.
  unfold afterStamp, S3.removeImageFromS3, S3.saveImage. rewrite Hs3.
  destruct (matchOldImageId _); [destruct (s3Removed e)|]; done.
Qed.

Lemma changeProfilePic_ok e user file w row :
  Users w !! user = Some row →
  Username row = user →
  dbFault e 0 = false →
  checkProfilePictureCooldown (later e) (ProfilePicChange row) = true →
  dbFault e 1 = false →
  s3Saved e = true →
  dbFault e 2 = false →
  let stamped := applyUpdate (SetProfilePicChange (now e)) row in
  let local := applyUpdate (SetProfilePic (newPictureLink e)) stamped in
  let w3 := setBucket (insert (uuid e)
               {| imageFile := file; imageWidth := 350; imageHeight := 350 |})
              (afterStamp e user row w) in
  let w4 := if truthy (Admin row) || truthy (CanPost row)
            then repointArticles user (newPictureLink e) w3 else w3 in
  changeProfilePic e user file w
  = ({| status := 200; message := Some "Item updated successfully"%string;
        accessToken := None; refreshToken := None;
        verificationToken := Some (getAccessJWT e (deleteSensitive (toObject local)));
        responseUser := Some (deleteSensitive (toObject local)) |},
     setUsers (insert user local) w4).
Proof.
  intros Hrow Hname Hf0 Hcool Hf1 Hs3 Hf2. unfold changeProfilePic. run.
  rewrite Hf0, Hrow, Hcool, Hname. simpl.
  rewrite (updateUser_found _ _ _ _ row), Hf1 by done.
  unfold afterStamp, S3.removeImageFromS3, S3.saveImage, newPictureLink.
  rewrite Hs3.
  destruct (matchOldImageId _); [destruct (s3Removed e)|];
    destruct (truthy (Admin row) || truthy (CanPost row)); run;
    (erewrite updateUser_found; [rewrite Hf2; reflexivity | apply lookup_insert_eq | done]).
Qed.

(** Claim C8.  For an existing user, [changeProfilePic] answers 403 and
    changes nothing whenever [ProfilePicChange] is a number and fewer
    than [7 * 24 * 60 * 60] seconds lie between it and the clock.  When
    the stamp is ['null'] (whatever the clock), or at least that many
    seconds old, the check lets the call through: with the Users table
    and [S3.saveImage] answering, it returns 200 and the row holds the
    new picture link and the new stamp. *)
Theorem changeProfilePic_cooldown_gate e user file w row :
  Users w !! user = Some row →
  Username row = user →
  dbFault e 0 = false →
  (∀ t, ProfilePicChange row = PicAt t →
        later e - t < 7 * 24 * 60 * 60 →
        changeProfilePic e user file w
        = (reply 403 "the user profile picture was changed in the last week", w))
  ∧ ((ProfilePicChange row = PicNull
      ∨ ∃ t, ProfilePicChange row = PicAt t ∧ 7 * 24 * 60 * 60 ≤ later e - t) →
     dbFault e 1 = false → s3Saved e = true → dbFault e 2 = false →
     ∃ r w',
       changeProfilePic e user file w = (r, w')
       ∧ status r = 200
       ∧ ProfilePic <$> Users w' !! user = Some (newPictureLink e)
       ∧ ProfilePicChange <$> Users w' !! user = Some (PicAt (now e))).
Proof.
  intros Hrow Hname Hf0. split.
  - intros t Hpic Hlt. apply (changeProfilePic_cooldown _ _ _ _ row); try done.
    rewrite Hpic. unfold checkProfilePictureCooldown, profilePicCooldown.
    apply Z.ltb_lt in Hlt. by rewrite Hlt.
  - intros Hpic Hf1 Hs3 Hf2.
    assert (checkProfilePictureCooldown (later e) (ProfilePicChange row) = true) as Hcool.
    { destruct Hpic as [-> | (t & -> & Hge)]; [done|].
      unfold checkProfilePictureCooldown, profilePicCooldown.
      apply Z.ltb_ge in Hge. by rewrite Hge. }
    do 2 eexists. split; [by apply changeProfilePic_ok|].
    simpl. by rewrite lookup_insert_eq.
Qed.

(** Claim C9.  With the cooldown passed, [changeProfilePic] writes the
    stamp before it talks to the object store: if that write raises, the
    call ends with the world, bucket included, untouched, whatever S3
    would have answered.  If the write succeeds and [S3.saveImage] then
    fails, the call returns 500 ['server error'], the stored
    [ProfilePicChange] is the new time and the stored [ProfilePic] is
    still the old link. *)
Theorem changeProfilePic_stamp_first e user file w row :
  Users w !! user = Some row →
  Username row = user →
  dbFault e 0 = false →
  checkProfilePictureCooldown (later e) (ProfilePicChange row) = true →
  (dbFault e 1 = true →
     changeProfilePic e user file w = (reply 500 "Internal server error", w))
  ∧ (dbFault e 1 = false → s3Saved e = false →
     ∃ w',
       changeProfilePic e user file w = (reply 500 "server error", w')
       ∧ Users w' = <[user := applyUpdate (SetProfilePicChange (now e)) row]> (Users w)
       ∧ ProfilePicChange <$> Users w' !! user = Some (PicAt (now e))
       ∧ ProfilePic <$> Users w' !! user = Some (ProfilePic row)).
Proof.
  intros Hrow Hname Hf0 Hcool. split.
  - intros Hf1. by apply (changeProfilePic_stamp_fault _ _ _ _ row).
  - intros Hf1 Hs3. eexists. split; [by apply changeProfilePic_save_fault|].
    rewrite afterStamp_Users, lookup_insert_eq. done.
Qed.

Lemma deleteUserAccount_steps e user password w row id :
  Users w !! user = Some row →
  dbFault e 0 = false →
  compareHash password (Password row) = true →
  matchImageId (ProfilePic row) = Some id →
  (id ≠ "pfp"%string → s3Removed e = true) →
  tokensDeleted e = true →
  let w3 := setArticles (filter (λ kv, Author kv.2 ≠ user))
              (setTokenTable (filter (λ kv, username kv.2 ≠ user))
                 (if String.eqb id "pfp" then w else setBucket (delete id) w)) in
  deleteUserAccount e user password w
  = if status (articlesRemoved e) =? 200 then
      if dbFault e 1 then (reply 500 "server error", w3)
      else (reply 200 "account deleted succesfuly", setUsers (delete user) w3)
    else (articlesRemoved e,
          setTokenTable (filter (λ kv, username kv.2 ≠ user))
            (if String.eqb id "pfp" then w else setBucket (delete id) w)).
Proof.
  intros Hrow Hf0 Hc Hid Hs3 Htok. unfold deleteUserAccount. run.
  rewrite Hf0, Hrow, Hc, Hid. simpl.
  unfold S3.removeImageFromS3, Tokens.deleteUserTokens,
    Articles.removeAllArticlesByUser, deleteUser.
  rewrite Htok.
  destruct (String.eqb id "pfp") eqn:Hpfp; simpl.
  - destruct (status (articlesRemoved e) =? 200) eqn:Hst; run; rewrite Hst; simpl; [|done].
    destruct (dbFault e 1); [done|]. run. by rewrite Hrow.
  - apply String.eqb_neq in Hpfp. rewrite (Hs3 Hpfp). run.
    destruct (status (articlesRemoved e) =? 200) eqn:Hst; run; rewrite Hst; simpl; [|done].
    destruct (dbFault e 1); [done|]. run. by rewrite Hrow.
Qed.

(** Claim C2.  [deleteUserAccount] for an existing user: when the
    password does not match the stored hash the result is 403 and the
    world (user row, tokens, articles, bucket) is unchanged.  When it
    matches and the collaborators answer, the stored picture is removed
    from the bucket unless its id is ['pfp'], exactly the tokens and the
    articles of other users remain, and the user row is deleted; the row
    goes last: if the article service refuses, its answer is returned
    and the row is still there. *)
Theorem deleteUserAccount_password_gate e user password w row :
  Users w !! user = Some row →
  dbFault e 0 = false →
  (compareHash password (Password row) = false →
     deleteUserAccount e user password w = (reply 403 "invalid password.", w))
  ∧ (compareHash password (Password row) = true →
     ∀ id, matchImageId (ProfilePic row) = Some id →
     (id ≠ "pfp"%string → s3Removed e = true) →
     tokensDeleted e = true →
     (status (articlesRemoved e) = 200 → dbFault e 1 = false →
        ∃ w',
          deleteUserAccount e user password w = (reply 200 "account deleted succesfuly", w')
          ∧ Users w' = delete user (Users w)
          ∧ Bucket w' = (if String.eqb id "pfp" then Bucket w else delete id (Bucket w))
          ∧ (∀ code tok, TokenTable w' !! code = Some tok
                         ↔ TokenTable w !! code = Some tok ∧ username tok ≠ user)
          ∧ (∀ a art, ArticlesPublished w' !! a = Some art
                      ↔ ArticlesPublished w !! a = Some art ∧ Author art ≠ user)
          ∧ (∀ a art, ArticlesUnpublished w' !! a = Some art
                      ↔ ArticlesUnpublished w !! a = Some art ∧ Author art ≠ user))
     ∧ (status (articlesRemoved e) ≠ 200 →
        ∃ w',
          deleteUserAccount e user password w = (articlesRemoved e, w')
          ∧ Users w' = Users w)).
Proof.
  intros Hrow Hf0. split.
  - intros Hc. unfold deleteUserAccount. run. by rewrite Hf0, Hrow, Hc.
  - intros Hc id Hid Hs3 Htok. split.
    + intros Hst Hf1. eexists. split.
      * rewrite (deleteUserAccount_steps _ _ _ _ row id) by done.
        apply Z.eqb_eq in Hst. by rewrite Hst, Hf1.
      * destruct (String.eqb id "pfp"); simpl;
          split_and!; try done; intros; apply map_lookup_filter_Some.
    + intros Hst. eexists. split.
      * rewrite (deleteUserAccount_steps _ _ _ _ row id) by done.
        apply Z.eqb_neq in Hst. by rewrite Hst.
      * simpl. by destruct (String.eqb id "pfp").
Qed.


Lemma requestEmailChange_ok e user password newEmail w row :
  Users w !! user = Some row →
  Username row = user →
  dbFault e 0 = false →
  3 * 60 * 60 ≤ now e - LastEmailChange row →
  compareHash password (Password row) = true →
  dbFault e 1 = false →
  let code := randomBytesHex 24 (random e) in
  let token := {| username := user; value := code; type := "email_change";
                  expiration := later e + 6 * 3600; newEmail := Some newEmail |} in
  let w1 := setTokenTable (insert code token) w in
  let w2 := if emailSent e
            then pushMail (EmailChangeVerificationEmail newEmail user code) w1 else w1 in
  let jwt := getAccessJWT e (toObject (applyUpdate (SetLastPasswordChange (now e)) row)) in
  requestEmailChange e user password newEmail w
  = ({| status := 200;
        message := Some "Verification email sent to new email address."%string;
        accessToken := Some jwt; refreshToken := None; verificationToken := None;
        responseUser := Some (decodeJWT jwt) |},
     setUsers (insert user (applyUpdate (SetLastEmailChange (now e)) row)) w2).
Proof.
  intros Hrow Hname Hf0 Hge Hc Hf1. unfold requestEmailChange. run. rewrite Hf0, Hrow.
  assert ((now e <? LastEmailChange row + 3 * 60 * 60) = false) as -> by (apply Z.ltb_ge; lia).
  rewrite Hc, Hname. simpl.
  unfold Email.sendEmailChangeVerificationEmail, Email.send.
  destruct (emailSent e); run;
    (erewrite updateUser_found; [rewrite Hf1; reflexivity | exact Hrow | done]).
Qed.

Lemma string_length_app (s1 s2 : string) :
  String.length (s1 ++ s2) = (String.length s1 + String.length s2)%nat.
Proof. induction s1 as [|c s1 IH]; simpl; [done|]. by rewrite IH. Qed.

Lemma padStart2_toString16_length b :
  String.length (padStart2 (toString16 b)) = 2%nat.
Proof. unfold toString16. by destruct (b <? 16). Qed.

Lemma concat_pairs_length (l : list string) :
  Forall (λ s, String.length s = 2%nat) l →
  String.length (String.concat "" l) = (2 * List.length l)%nat.
Proof.
  induction 1 as [|s l Hs Hl IH]; [done|].
  destruct l as [|s' l]; [simpl; lia|].
  change (String.concat "" (s :: s' :: l)) with (s ++ String.concat "" (s' :: l))%string.
  rewrite string_length_app, IH, Hs. simpl List.length. lia.
Qed.

Lemma randomBytesHex_length n rnd :
  String.length (randomBytesHex n rnd) = (2 * n)%nat.
Proof.
  unfold randomBytesHex. rewrite concat_pairs_length.
  - by rewrite !length_map, length_seq.
  - apply Forall_forall. intros s Hs. apply list_elem_of_fmap in Hs as (b & -> & _).
    apply padStart2_toString16_length.
Qed.

Lemma generatedPassword_length e user :
  String.length (generatedPassword e user) = (String.length user + 16)%nat.
Proof.
  unfold generatedPassword. by rewrite string_length_app, randomBytesHex_length.
Qed.

Lemma queryArticles_elem (table : gmap string Article) user id :
  id ∈ queryArticles table user ↔ ∃ art, table !! id = Some art ∧ Author art = user.
Proof.
  unfold queryArticles. rewrite list_elem_of_fmap. split.
  - intros ([k art] & -> & Hin). apply elem_of_map_to_list in Hin.
    apply map_lookup_filter_Some in Hin as [Hk Ha]. by exists art.
  - intros (art & Hk & Ha). exists (id, art). split; [done|].
    apply elem_of_map_to_list. by apply map_lookup_filter_Some.
Qed.

Lemma updateArticles_skip ids link (table : gmap string Article) id :
  id ∉ ids ∨ truthy id = false →
  updateArticles ids link table !! id = table !! id.
Proof.
  intros Hskip. induction ids as [|i ids IH]; simpl; [done|].
  assert (id ∉ ids ∨ truthy id = false) as Htl.
  { destruct Hskip as [Hnot | Hf]; [left | by right].
    intros Hin. apply Hnot. by apply elem_of_cons; right. }
  destruct (truthy i) eqn:Hi; [|by apply IH].
  rewrite lookup_alter_ne; [by apply IH|].
  intros ->. destruct Hskip as [Hnot | Hf]; [|congruence].
  apply Hnot. by apply elem_of_cons; left.
Qed.

Lemma updateArticles_hit ids link (table : gmap string Article) id :
  id ∈ ids → truthy id = true →
  updateArticles ids link table !! id = repoint link <$> table !! id.
Proof.
  intros Hin Ht. induction ids as [|i ids IH]; [by apply elem_of_nil in Hin|].
  simpl. destruct (decide (i = id)) as [-> | Hne].
  - rewrite Ht, lookup_alter_eq.
    destruct (decide (id ∈ ids)) as [Hin' | Hnot].
    + rewrite IH by done. by destruct (table !! id).
    + rewrite updateArticles_skip by (by left). done.
  - apply elem_of_cons in Hin as [-> | Hin]; [done|].
    destruct (truthy i); [rewrite lookup_alter_ne by done|]; by apply IH.
Qed.

(** What the cascade does to one row of a collection. *)
Lemma repointed_lookup (table : gmap string Article) user link id art :
  table !! id = Some art →
  updateArticles (queryArticles table user) link table !! id
  = Some (if decide (Author art = user ∧ truthy id = true) then repoint link art else art).
Proof.
  intros Hid. case_decide as Hd.
  - destruct Hd as [Ha Ht]. rewrite updateArticles_hit, Hid; [done | | done].
    apply queryArticles_elem. by exists art.
  - rewrite updateArticles_skip; [done|].
    destruct (truthy id) eqn:Ht; [left | by right].
    intros (art' & Hid' & Ha)%queryArticles_elem. apply Hd. split; congruence.
Qed.

(** The guard in front of the cascade holds for both spellings of a
    flag: ['false'] is a non-empty string. *)
Lemma cascade_guard_flag_strings row :
  Admin row = "true"%string ∨ Admin row = "false"%string →
  truthy (Admin row) || truthy (CanPost row) = true.
Proof. by intros [-> | ->]. Qed.

Lemma changeProfilePic_cascade e user file w row id art :
  Users w !! user = Some row →
  Username row = user →
  dbFault e 0 = false →
  checkProfilePictureCooldown (later e) (ProfilePicChange row) = true →
  dbFault e 1 = false →
  s3Saved e = true →
  dbFault e 2 = false →
  truthy (Admin row) || truthy (CanPost row) = true →
  ArticlesPublished w !! id = Some art →
  Author art = user →
  truthy id = true →
  ArticlesPublished (changeProfilePic e user file w).2 !! id
  = Some (repoint (newPictureLink e) art).
Proof.
  intros Hrow Hname Hf0 Hcool Hf1 Hs3 Hf2 Hguard Hid Ha Ht.
  rewrite (changeProfilePic_ok _ _ _ _ row) by done. simpl. rewrite Hguard. simpl.
  assert (ArticlesPublished (afterStamp e user row w) = ArticlesPublished w) as ->.
  { unfold afterStamp. destruct (matchOldImageId _); [destruct (s3Removed e)|]; done. }
  rewrite (repointed_lookup _ _ _ _ art) by done. by rewrite decide_True.
Qed.

Lemma requestEmailChange_claims e user password newEmail w row :
  Users w !! user = Some row →
  Username row = user →
  dbFault e 0 = false →
  3 * 60 * 60 ≤ now e - LastEmailChange row →
  compareHash password (Password row) = true →
  dbFault e 1 = false →
  ∃ r w' jwt,
    requestEmailChange e user password newEmail w = (r, w')
    ∧ accessToken r = Some jwt
    ∧ LastEmailChange <$> Users w' !! user = Some (now e)
    ∧ LastPasswordChange <$> Users w' !! user = Some (LastPasswordChange row)
    ∧ jwtPayload jwt !! "LastEmailChange" = Some (JNumber (LastEmailChange row))
    ∧ jwtPayload jwt !! "LastPasswordChange" = Some (JNumber (now e)).
Proof.
  intros Hrow Hname Hf0 Hge Hc Hf1. do 3 eexists.
  split; [by apply requestEmailChange_ok|]. simpl.
  split_and!; [done | by rewrite lookup_insert_eq ..| |];
    unfold getAccessJWT, sign, toObject; simpl;
    rewrite !lookup_insert_ne by done; apply lookup_insert_eq.
Qed.

(** ** Strings *)

Lemma string_app_assoc (a b c : string) : ((a ++ b) ++ c = a ++ (b ++ c))%string.
Proof.
  induction a as [|x a IH]; [done|].
  change (String x ((a ++ b) ++ c) = String x (a ++ (b ++ c)))%string. by rewrite IH.
Qed.

Lemma string_app_cons x (a b : string) : (String x a ++ b)%string = String x (a ++ b).
Proof. reflexivity. Qed.

Lemma string_app_nil_r (a : string) : (a ++ "")%string = a.
Proof.
  induction a as [|x a IH]; [done|].
  change (String x (a ++ "") = String x a)%string. by rewrite IH.
Qed.

Lemma allChars_app f (a b : string) :
  allChars f (a ++ b) = allChars f a && allChars f b.
Proof. induction a as [|x a IH]; simpl; [done|]. rewrite IH. by destruct (f x). Qed.

Lemma span_app f s a r : span f s = (a, r) → s = (a ++ r)%string.
Proof.
  revert a r. induction s as [|c s IH]; simpl; intros a r H.
  - by inversion H.
  - destruct (f c); [|by inversion H].
    destruct (span f s) as [a' r']. inversion H; subst. simpl. by rewrite (IH a' r).
Qed.

Lemma span_all f s a r : span f s = (a, r) → allChars f a = true.
Proof.
  revert a r. induction s as [|c s IH]; simpl; intros a r H.
  - by inversion H.
  - destruct (f c) eqn:Hc; [|by inversion H].
    destruct (span f s) as [a' r']. inversion H; subst. simpl. rewrite Hc. by eapply IH.
Qed.

Lemma span_rest f s a r :
  span f s = (a, r) → r = EmptyString ∨ ∃ c r', r = String c r' ∧ f c = false.
Proof.
  revert a r. induction s as [|c s IH]; simpl; intros a r H.
  - inversion H. by left.
  - destruct (f c) eqn:Hc.
    + destruct (span f s) as [a' r']. inversion H; subst. by eapply IH.
    + inversion H; subst. right. by exists c, s.
Qed.

Lemma span_unique f a r :
  allChars f a = true →
  (r = EmptyString ∨ ∃ c r', r = String c r' ∧ f c = false) →
  span f (a ++ r) = (a, r).
Proof.
  intros Ha Hr. induction a as [|x a IH]; simpl in *.
  - destruct Hr as [-> | (c & r' & -> & Hc)]; [done|]. simpl. by rewrite Hc.
  - apply andb_prop in Ha as [Hx Ha]. by rewrite Hx, IH.
Qed.

Lemma hexDigit_isLowerHex d : 0 ≤ d < 16 → isLowerHex (hexDigit d) = true.
Proof.
  intros Hd.
  assert (d = 0 ∨ d = 1 ∨ d = 2 ∨ d = 3 ∨ d = 4 ∨ d = 5 ∨ d = 6 ∨ d = 7 ∨ d = 8
          ∨ d = 9 ∨ d = 10 ∨ d = 11 ∨ d = 12 ∨ d = 13 ∨ d = 14 ∨ d = 15) as H by lia.
  repeat (destruct H as [-> | H]; [reflexivity|]). by subst.
Qed.

Lemma padStart2_toString16_hex b :
  0 ≤ b < 256 → allChars isLowerHex (padStart2 (toString16 b)) = true.
Proof.
  intros Hb. unfold toString16. destruct (b <? 16) eqn:Hlt; simpl.
  - apply Z.ltb_lt in Hlt. rewrite hexDigit_isLowerHex by lia. done.
  - rewrite !hexDigit_isLowerHex; [done | |].
    + apply Z.mod_pos_bound. lia.
    + split; [apply Z.div_pos; lia | apply Z.div_lt_upper_bound; lia].
Qed.

Lemma concat_allChars f (l : list string) :
  Forall (λ s, allChars f s = true) l → allChars f (String.concat "" l) = true.
Proof.
  induction 1 as [|s l Hs Hl IH]; [done|].
  destruct l as [|s' l]; [done|].
  change (String.concat "" (s :: s' :: l)) with (s ++ String.concat "" (s' :: l))%string.
  by rewrite allChars_app, Hs, IH.
Qed.

(** X1.  Whatever [Math.random] returns, [randomBytesHex(length)] is a
    string of exactly [2 * length] characters, each of them one of
    [0-9a-f]: every byte is rendered as two lower-case hexadecimal
    digits, the single-digit ones padded with ['0']. *)
Theorem randomBytesHex_two_hex_digits_per_byte n rnd :
  String.length (randomBytesHex n rnd) = (2 * n)%nat
  ∧ allChars isLowerHex (randomBytesHex n rnd) = true.
Proof.
  split; [apply randomBytesHex_length|].
  unfold randomBytesHex. apply concat_allChars, Forall_forall.
  intros s (b & -> & Hb)%list_elem_of_fmap.
  apply list_elem_of_fmap in Hb as (i & -> & _).
  apply padStart2_toString16_hex, Z.mod_pos_bound. lia.
Qed.

Lemma hasDotBeforeLast_iff s :
  hasDotBeforeLast s = true ↔ ∃ b c, s = (b ++ "." ++ c)%string ∧ c ≠ EmptyString.
Proof.
  induction s as [|x s IH]; simpl.
  - split; [done|]. intros (b & c & H & _). by destruct b.
  - destruct s as [|y s].
    + split; [done|]. intros (b & c & H & Hc).
      destruct b as [|? b]; simpl in H; inversion H; subst; [done|]. by destruct b.
    + rewrite orb_true_iff, IH. split.
      * intros [Hx | (b & c & Hs & Hc)].
        -- apply Ascii.eqb_eq in Hx as ->. by exists EmptyString, (String y s).
        -- exists (String x b), c. by rewrite Hs.
      * intros (b & c & H & Hc). destruct b as [|x' b]; simpl in H; inversion H; subst.
        -- left. apply Ascii.eqb_refl.
        -- right. by exists b, c.
Qed.

Lemma hasInnerDot_iff s :
  hasInnerDot s = true
  ↔ ∃ b c, s = (b ++ "." ++ c)%string ∧ b ≠ EmptyString ∧ c ≠ EmptyString.
Proof.
  destruct s as [|x s]; simpl.
  - split; [done|]. intros (b & c & H & _). by destruct b.
  - rewrite hasDotBeforeLast_iff. split.
    + intros (b & c & -> & Hc). by exists (String x b), c.
    + intros (b & c & H & Hb & Hc). destruct b as [|x' b]; [done|].
      simpl in H. inversion H; subst. by exists b, c.
Qed.

(** X2.  [isValidEmail] accepts exactly the strings
    [local @ domain . tld] in which the three parts are non-empty and
    hold no white space and no [@] (dots are allowed inside each part):
    nothing in front of the first [@], a second [@], white space
    anywhere, a domain without an inner dot are all refused. *)
Theorem isValidEmail_shape email :
  isValidEmail email = true
  ↔ ∃ a b c,
      email = (a ++ "@" ++ b ++ "." ++ c)%string
      ∧ a ≠ EmptyString ∧ b ≠ EmptyString ∧ c ≠ EmptyString
      ∧ allChars isEmailChar a = true
      ∧ allChars isEmailChar b = true
      ∧ allChars isEmailChar c = true.
Proof.
  unfold isValidEmail. split.
  - destruct (span isEmailChar email) as [loc rest] eqn:Hspan.
    intros [Hloc Hrest]%andb_prop.
    destruct rest as [|x domain]; [done|].
    destruct (Ascii.eqb x "@") eqn:Hx.
    2:{ destruct x as [[] [] [] [] [] [] [] []]; simpl in *; congruence. }
    apply Ascii.eqb_eq in Hx as ->.
    destruct (span isEmailChar domain) as [run tl] eqn:Hdom.
    apply andb_prop in Hrest as [Htl Hdot]. apply String.eqb_eq in Htl as ->.
    apply hasInnerDot_iff in Hdot as (b & c & -> & Hb & Hc).
    pose proof (span_all _ _ _ _ Hdom) as Hall.
    rewrite !allChars_app in Hall. apply andb_prop in Hall as [Hallb Hallc].
    simpl in Hallc.
    exists loc, b, c. split_and!; try done.
    + rewrite (span_app _ _ _ _ Hspan), (span_app _ _ _ _ Hdom). simpl.
      by rewrite string_app_nil_r.
    + intros ->. by simpl in Hloc.
    + by eapply span_all.
  - intros (a & b & c & -> & Ha & Hb & Hc & Halla & Hallb & Hallc).
    rewrite (span_unique isEmailChar a) by (try done; right; by eexists _, _).
    destruct a as [|x a]; [done|]. simpl.
    change ("" ++ b ++ "." ++ c)%string with (b ++ "." ++ c)%string.
    rewrite <- (string_app_nil_r (b ++ "." ++ c)).
    rewrite (span_unique isEmailChar (b ++ "." ++ c) "");
      [|by rewrite !allChars_app, Hallb, Hallc | by left].
    simpl. apply hasInnerDot_iff. by exists b, c.
Qed.

(** ** The picture links and the expressions that read them *)

Lemma firstMatch_unfold at_ s :
  firstMatch at_ s
  = match at_ s with
    | Some g => Some g
    | None => match s with
              | String _ s' => firstMatch at_ s'
              | EmptyString => None
              end
    end.
Proof. by destruct s. Qed.

Lemma stripPrefix_app p u v rest :
  stripPrefix p (u ++ v) = Some rest →
  (String.length p ≤ String.length u)%nat →
  ∃ u', rest = (u' ++ v)%string.
Proof.
  revert u. induction p as [|a p IH]; intros u Hs Hlen.
  - simpl in Hs. inversion Hs. by exists u.
  - destruct u as [|b u]; [simpl in Hlen; lia|].
    rewrite string_app_cons in Hs. simpl in Hs, Hlen.
    destruct (Ascii.eqb a b); [|done]. apply (IH u); [done | lia].
Qed.

Lemma span_keeps_stop f x c y :
  f c = false → ∃ x2, (span f (x ++ String c y)).2 = (x2 ++ String c y)%string.
Proof.
  intros Hc. induction x as [|d x IH].
  - exists EmptyString. change ("" ++ String c y)%string with (String c y).
    simpl. by rewrite Hc.
  - rewrite string_app_cons. simpl. destruct (f d).
    + destruct IH as [x2 IH]. exists x2.
      by destruct (span f (x ++ String c y)).
    + by exists (String d x).
Qed.

Lemma oldImageAt_before q id :
  q ≠ EmptyString → oldImageAt (q ++ "images/" ++ id ++ ".png") = None.
Proof.
  intros Hq. unfold oldImageAt.
  destruct (stripPrefix _ _) as [rest|] eqn:Hs; [|done].
  change (q ++ "images/" ++ id ++ ".png")%string
    with (q ++ "images" ++ String "/" (id ++ ".png"))%string in Hs.
  rewrite <- string_app_assoc in Hs.
  apply stripPrefix_app in Hs as [u' ->].
  2:{ rewrite string_length_app. destruct q; [done|]. simpl. lia. }
  destruct (span_keeps_stop isHexDash u' "/" (id ++ ".png") eq_refl) as [x2 Hx2].
  destruct (span isHexDash _) as [g tl]. simpl in Hx2. subst tl.
  destruct (existsb _ _) eqn:He; [|by rewrite andb_false_r].
  apply existsb_exists in He as (ext & Hin & Heq). apply String.eqb_eq in Heq.
  assert (allChars notSlash ext = false) as Hslash.
  { rewrite <- Heq, allChars_app. apply andb_false_r. }
  simpl in Hin. by destruct Hin as [<- | [<- | [<- | [<- | []]]]].
Qed.

Lemma oldImageAt_here id :
  id ≠ EmptyString → allChars isHexDash id = true →
  oldImageAt ("images/" ++ id ++ ".png") = Some id.
Proof.
  intros Hid Hall. unfold oldImageAt.
  change (stripPrefix "images/" ("images/" ++ id ++ ".png"))
    with (Some (id ++ ".png")%string).
  cbv iota beta.
  rewrite (span_unique isHexDash id ".png"); [|done | right; by eexists _, _].
  by destruct id.
Qed.

Lemma matchOldImageId_after q id :
  id ≠ EmptyString → allChars isHexDash id = true →
  firstMatch oldImageAt (q ++ "images/" ++ id ++ ".png") = Some id.
Proof.
  intros Hid Hall. induction q as [|c q IH].
  - change ("" ++ "images/" ++ id ++ ".png")%string with ("images/" ++ id ++ ".png")%string.
    by rewrite firstMatch_unfold, oldImageAt_here.
  - rewrite firstMatch_unfold, oldImageAt_before by done.
    by rewrite string_app_cons.
Qed.

Lemma matchOldImageId_built link id :
  id ≠ EmptyString →
  allChars isHexDash id = true →
  matchOldImageId (link ++ "/images/" ++ id ++ ".png") = Some id.
Proof.
  intros Hid Hall. unfold matchOldImageId.
  change (link ++ "/images/" ++ id ++ ".png")%string
    with (link ++ "/" ++ ("images/" ++ id ++ ".png"))%string.
  rewrite <- string_app_assoc. by apply matchOldImageId_after.
Qed.

(** X3.  A picture link that [changeProfilePic] built is read back by
    its own expression for the old picture: for every link prefix and
    every non-empty id over [a-f0-9-] (the alphabet of a uuid), matching
    [prefix/images/id.png] yields [id], however many [images/] segments
    the prefix holds. *)
Theorem matchOldImageId_reads_back_built_link link id :
  id ≠ EmptyString →
  allChars isHexDash id = true →
  matchOldImageId (link ++ "/images/" ++ id ++ ".png") = Some id.
Proof. apply matchOldImageId_built. Qed.

(** ** Registration *)

Lemma createUser_ok e clock3 user password email canPost admin w :
  isValidEmail email = true →
  (8 ≤ String.length password)%nat →
  dbFault e 0 = true ∨ Users w !! user = None →
  dbFault e 1 = false →
  createUser e clock3 user password email canPost admin w
  = (reply 200 "user created successfully",
     let w1 := setUsers (insert user
                 (registeredRow e clock3 user password email canPost admin)) w in
     let w2 := setTokenTable (insert (registrationCode e)
                 (registrationToken user (registrationCode e))) w1 in
     if emailSent e
     then pushMail (AccountVerificationEmail email user (registrationCode e)) w2
     else w2).
Proof.
  intros Hmail Hlen Hfree Hf1. unfold createUser. rewrite Hmail. simpl.
  assert ((String.length password <? 8)%nat = false) as -> by (apply Nat.ltb_ge; lia).
  run.
  assert ((if dbFault e 0 then None else Users w !! user) = None) as ->.
  { destruct Hfree as [-> | ->]; [done|]. by destruct (dbFault e 0). }
  rewrite Hf1. unfold Email.sendAccountVerificationEmail, Email.send, registrationCode.
  by destruct (emailSent e).
Qed.

(** X4.  [createUser] checks its input in a fixed order and refuses
    without writing anything: a malformed email address gets 400
    ['invalid email address'] whatever the password is; with a
    well-formed address a password of fewer than 8 characters gets 400;
    with both in order a username that is read back from the table gets
    400 ['username is already in use'].  In all three cases the world is
    unchanged: no row, no token, no mail. *)
Theorem createUser_refuses_in_order e clock3 user password email canPost admin w :
  (isValidEmail email = false →
     createUser e clock3 user password email canPost admin w
     = (reply 400 "invalid email address", w))
  ∧ (isValidEmail email = true → (String.length password < 8)%nat →
     createUser e clock3 user password email canPost admin w
     = (reply 400 "password must be at least 8 characters long", w))
  ∧ (isValidEmail email = true → (8 ≤ String.length password)%nat →
     dbFault e 0 = false → is_Some (Users w !! user) →
     createUser e clock3 user password email canPost admin w
     = (reply 400 "username is already in use", w)).
Proof.
  unfold createUser. split_and!.
  - by intros ->.
  - intros -> Hlen. apply Nat.ltb_lt in Hlen. simpl. by rewrite Hlen.
  - intros -> Hlen Hf0 [row Hrow]. apply Nat.ltb_ge in Hlen. simpl.
    rewrite Hlen. run. by rewrite Hf0, Hrow.
Qed.

(** X5.  A successful [createUser] leaves an account that is not yet
    verified, has the default picture with no cooldown stamp and an
    empty list of likes, stores the bcrypt hash and not the password, and
    leaves exactly one new token under the generated code: an
    ['email_verification'] token for that user with expiration 0.  The
    answer is 200 whether or not the verification mail could be sent. *)
Theorem createUser_registers e clock3 user password email canPost admin w :
  isValidEmail email = true →
  (8 ≤ String.length password)%nat →
  Users w !! user = None →
  dbFault e 0 = false → dbFault e 1 = false →
  ∃ w' row,
    createUser e clock3 user password email canPost admin w
    = (reply 200 "user created successfully", w')
    ∧ Users w' = <[user := row]> (Users w)
    ∧ Username row = user ∧ Password row = genPassHash e password
    ∧ Verified row = "false"%string ∧ ProfilePic row = defaultProfilePic
    ∧ ProfilePicChange row = PicNull ∧ Liked row = []
    ∧ TokenTable w'
      = <[registrationCode e :=
            {| username := user; value := registrationCode e;
               type := "email_verification"; expiration := 0; newEmail := None |}]>
          (TokenTable w)
    ∧ Outbox w'
      = Outbox w ++ (if emailSent e
                     then [AccountVerificationEmail email user (registrationCode e)]
                     else []).
Proof.
  intros Hmail Hlen Hfree Hf0 Hf1. do 2 eexists.
  split; [apply createUser_ok; auto|].
  destruct (emailSent e); simpl; split_and!; try done. by rewrite app_nil_r.
Qed.

(** X6.  [getUser] turns a failed read into "no such user", so the
    existence check of [createUser] passes when its read of the Users
    table raises: if the following write then answers, the row of an
    account that already exists under that username is replaced by the
    new, unverified one, and the call returns 200. *)
Theorem createUser_overwrites_after_failed_read e clock3 user password email canPost admin w old :
  isValidEmail email = true →
  (8 ≤ String.length password)%nat →
  Users w !! user = Some old →
  dbFault e 0 = true → dbFault e 1 = false →
  ∃ w',
    createUser e clock3 user password email canPost admin w
    = (reply 200 "user created successfully", w')
    ∧ Users w' !! user = Some (registeredRow e clock3 user password email canPost admin)
    ∧ Verified <$> Users w' !! user = Some "false"%string.
Proof.
  intros Hmail Hlen Hold Hf0 Hf1. eexists.
  split; [apply createUser_ok; auto|].
  destruct (emailSent e); simpl; by rewrite lookup_insert_eq.
Qed.

(** X7.  When the write of the new row raises, [createUser] returns 500
    ['server error'] and nothing has happened: no row, no token, and no
    verification mail. *)
Theorem createUser_failed_write_leaves_nothing e clock3 user password email canPost admin w :
  isValidEmail email = true →
  (8 ≤ String.length password)%nat →
  dbFault e 0 = true ∨ Users w !! user = None →
  dbFault e 1 = true →
  createUser e clock3 user password email canPost admin w = (reply 500 "server error", w).
Proof.
  intros Hmail Hlen Hfree Hf1. unfold createUser. rewrite Hmail. simpl.
  assert ((String.length password <? 8)%nat = false) as -> by (apply Nat.ltb_ge; lia).
  run.
  assert ((if dbFault e 0 then None else Users w !! user) = None) as ->.
  { destruct Hfree as [-> | ->]; [done|]. by destruct (dbFault e 0). }
  by rewrite Hf1.
Qed.

Lemma verifyEmail_ok e code w tok row :
  TokenTable w !! code = Some tok →
  type tok = "email_verification"%string →
  Users w !! username tok = Some row →
  Verified row = "false"%string →
  dbFault e 0 = false → dbFault e 1 = false →
  verifyEmail e code w
  = (reply 200 "email verified",
     setTokenTable (delete code)
       (setUsers (insert (username tok) (applyUpdate (SetVerified "true") row)) w)).
Proof.
  intros Htok Hty Hrow Hver Hf0 Hf1. unfold verifyEmail. run.
  rewrite Htok, Hty. simpl. rewrite Hf0, Hrow, Hver. simpl.
  by rewrite (updateUser_found _ _ _ _ row), Hf1.
Qed.

Lemma verifyEmail_missing e code w :
  TokenTable w !! code = None →
  verifyEmail e code w = (reply 404 "invalid or expired verification code", w).
Proof. intros Htok. unfold verifyEmail. run. by rewrite Htok. Qed.

Lemma verifyUser_ok e user password w row :
  Users w !! user = Some row →
  dbFault e 0 = false →
  compareHash password (Password row) = true →
  verifyUser e user password w
  = ({| status := 200; message := None;
        accessToken := Some (getAccessJWT e (deleteSensitive (toObject row)));
        refreshToken := Some (getRefreshJWT e (deleteSensitive (toObject row)));
        verificationToken := None;
        responseUser := Some (decodeJWT (getAccessJWT e (deleteSensitive (toObject row)))) |},
     w).
Proof.
  intros Hrow Hf0 Hc. unfold verifyUser. run. by rewrite Hf0, Hrow, Hc.
Qed.

(** Reading a key of the claims a token was signed over. *)
Ltac claim_lookup :=
  unfold decodeJWT, getAccessJWT, getRefreshJWT, sign, deleteSensitive, toObject; simpl;
  repeat first [ rewrite lookup_insert_ne by done | rewrite lookup_delete_ne by done ];
  try apply lookup_insert_eq.

(** X8.  Registration and verification compose: the code that
    [createUser] stores and mails verifies the account whenever it is
    presented, with no time limit (the call takes no clock): the account
    goes from [Verified = 'false'] to ['true'], the token is consumed,
    and presenting the same code once more gets 404 and changes
    nothing. *)
Theorem register_then_verifyEmail e clock3 user password email canPost admin w e2 :
  isValidEmail email = true →
  (8 ≤ String.length password)%nat →
  Users w !! user = None →
  dbFault e 0 = false → dbFault e 1 = false →
  dbFault e2 0 = false → dbFault e2 1 = false →
  let w1 := (createUser e clock3 user password email canPost admin w).2 in
  Verified <$> Users w1 !! user = Some "false"%string
  ∧ ∃ w2,
      verifyEmail e2 (registrationCode e) w1 = (reply 200 "email verified", w2)
      ∧ Verified <$> Users w2 !! user = Some "true"%string
      ∧ TokenTable w2 !! registrationCode e = None
      ∧ verifyEmail e2 (registrationCode e) w2
        = (reply 404 "invalid or expired verification code", w2).
Proof.
  intros Hmail Hlen Hfree Hf0 Hf1 Hg0 Hg1 w1. subst w1.
  rewrite createUser_ok by auto. simpl.
  set (w1 := if emailSent e then _ else _).
  assert (Users w1 !! user
          = Some (registeredRow e clock3 user password email canPost admin)) as Hrow.
  { subst w1. destruct (emailSent e); simpl; apply lookup_insert_eq. }
  assert (TokenTable w1 !! registrationCode e
          = Some (registrationToken user (registrationCode e))) as Htok.
  { subst w1. destruct (emailSent e); simpl; apply lookup_insert_eq. }
  split; [by rewrite Hrow|]. eexists. split; [|split_and!].
  - eapply verifyEmail_ok; [exact Htok | done | exact Hrow | done ..].
  - simpl. by rewrite lookup_insert_eq.
  - simpl. apply lookup_delete_eq.
  - apply verifyEmail_missing. simpl. apply lookup_delete_eq.
Qed.

(** X9.  Registration and login compose, and login does not ask for a
    verified address: provided bcrypt accepts a password against its own
    hash, [verifyUser] with the registration password succeeds on the
    fresh account, and the claims it returns name the user and say
    [Verified = 'false']. *)
Theorem register_then_login e clock3 user password email canPost admin w e2 :
  bcrypt_compare password (bcrypt_hash password (salt e)) = true →
  isValidEmail email = true →
  (8 ≤ String.length password)%nat →
  Users w !! user = None →
  dbFault e 0 = false → dbFault e 1 = false →
  dbFault e2 0 = false →
  let w1 := (createUser e clock3 user password email canPost admin w).2 in
  ∃ r claims,
    verifyUser e2 user password w1 = (r, w1)
    ∧ status r = 200
    ∧ responseUser r = Some claims
    ∧ claims !! "Username" = Some (JString user)
    ∧ claims !! "Verified" = Some (JString "false")
    ∧ claims !! "Password" = None.
Proof.
  intros Hbc Hmail Hlen Hfree Hf0 Hf1 Hg0 w1. subst w1.
  rewrite createUser_ok by auto. simpl.
  set (w1 := if emailSent e then _ else _).
  assert (Users w1 !! user
          = Some (registeredRow e clock3 user password email canPost admin)) as Hrow.
  { subst w1. destruct (emailSent e); simpl; apply lookup_insert_eq. }
  do 2 eexists. split; [by apply (verifyUser_ok _ _ _ _ _ Hrow)|].
  split_and!; try done; claim_lookup.
Qed.

(** ** The request gate *)

Lemma access_token_at_the_gate e row requireVerified clock :
  authenticateToken requireVerified clock
    (Some (getAccessJWT e (deleteSensitive (toObject row))))
  = if issuedAt e + 30 * 60 <=? clock then Sent (reply 401 "token expired")
    else if requireVerified && String.eqb (Verified row) "false"
         then Sent (reply 403 "account not verified")
         else Next (jwtPayload (getAccessJWT e (deleteSensitive (toObject row)))).
Proof.
  unfold authenticateToken, jwtVerify.
  assert (jwtSecret (getAccessJWT e (deleteSensitive (toObject row))) = orDefault JWT_KEY)
    as -> by done.
  rewrite String.eqb_refl. simpl negb. cbv iota.
  assert (jwtPayload (getAccessJWT e (deleteSensitive (toObject row))) !! "exp"
          = Some (JNumber (issuedAt e + 30 * 60))) as -> by claim_lookup.
  destruct (issuedAt e + 30 * 60 <=? clock); [done|].
  assert (jwtPayload (getAccessJWT e (deleteSensitive (toObject row))) !! "Verified"
          = Some (JString (Verified row))) as -> by claim_lookup.
  done.
Qed.

(** X10.  Login and the gate compose.  The access token [verifyUser]
    issues is let through by [authenticateToken] for exactly 30 minutes
    from the second it was signed: from [iat + 1800] on the answer is 401
    ['token expired'].  Within that time a gate that requires a verified
    account answers 403 for an account whose [Verified] is ['false'] and
    lets every other one through; a gate that does not require it lets
    all through. *)
Theorem login_token_at_the_gate e user password w row requireVerified clock :
  Users w !! user = Some row →
  dbFault e 0 = false →
  compareHash password (Password row) = true →
  ∃ token,
    accessToken (verifyUser e user password w).1 = Some token
    ∧ (issuedAt e + 30 * 60 ≤ clock →
       authenticateToken requireVerified clock (Some token)
       = Sent (reply 401 "token expired"))
    ∧ (clock < issuedAt e + 30 * 60 →
       authenticateToken requireVerified clock (Some token)
       = if requireVerified && String.eqb (Verified row) "false"
         then Sent (reply 403 "account not verified")
         else Next (jwtPayload token)).
Proof.
  intros Hrow Hf0 Hc. rewrite (verifyUser_ok _ _ _ _ row) by done.
  eexists. split; [reflexivity|]. rewrite access_token_at_the_gate. split; intros Hclock.
  - apply Z.leb_le in Hclock. by rewrite Hclock.
  - apply Z.leb_gt in Hclock. by rewrite Hclock.
Qed.

(** X11.  The refresh token of a login is not an access token when the
    two secrets differ: the gate answers 403 ['invalid token'] at any
    time.  When they coincide (as when neither [JWT_KEY] nor
    [JWT_REFRESH_KEY] is configured and both fall back to ['default'])
    the gate lets the refresh token through for its whole three days. *)
Theorem refresh_token_at_the_gate e user password w row clock :
  Users w !! user = Some row →
  dbFault e 0 = false →
  compareHash password (Password row) = true →
  ∃ refresh,
    refreshToken (verifyUser e user password w).1 = Some refresh
    ∧ (orDefault JWT_REFRESH_KEY ≠ orDefault JWT_KEY →
       authenticateToken false clock (Some refresh) = Sent (reply 403 "invalid token"))
    ∧ (orDefault JWT_REFRESH_KEY = orDefault JWT_KEY →
       clock < issuedAt e + 3 * 24 * 60 * 60 →
       authenticateToken false clock (Some refresh) = Next (jwtPayload refresh)).
Proof.
  intros Hrow Hf0 Hc. rewrite (verifyUser_ok _ _ _ _ row) by done.
  eexists. split; [reflexivity|]. unfold authenticateToken, jwtVerify.
  assert (jwtSecret (getRefreshJWT e (deleteSensitive (toObject row)))
          = orDefault JWT_REFRESH_KEY) as -> by done.
  split.
  - intros Hne. apply String.eqb_neq in Hne. by rewrite Hne.
  - intros -> Hclock. rewrite String.eqb_refl. simpl negb. cbv iota.
    assert (jwtPayload (getRefreshJWT e (deleteSensitive (toObject row))) !! "exp"
            = Some (JNumber (issuedAt e + 3 * 24 * 60 * 60))) as -> by claim_lookup.
    apply Z.leb_gt in Hclock. by rewrite Hclock.
Qed.

Lemma authTokenOptional_with_cookie clock token :
  authTokenOptional clock (Some token) = authenticateToken false clock (Some token).
Proof.
  unfold authTokenOptional, authenticateToken.
  by destruct (jwtVerify clock token (orDefault JWT_KEY)).
Qed.

(** X29.  The optional gate lets a request without a cookie through with
    an empty identity, but it does not treat a stale login as anonymous:
    the access token of a login gets 401 ['token expired'] from
    [iat + 1800] on, as at the mandatory gate.  Before that the request
    goes through with the token's claims, whether or not the account is
    verified. *)
Theorem authTokenOptional_on_login_token e user password w row clock :
  Users w !! user = Some row →
  dbFault e 0 = false →
  compareHash password (Password row) = true →
  authTokenOptional clock None = Next ∅
  ∧ ∃ token,
      accessToken (verifyUser e user password w).1 = Some token
      ∧ (issuedAt e + 30 * 60 ≤ clock →
         authTokenOptional clock (Some token) = Sent (reply 401 "token expired"))
      ∧ (clock < issuedAt e + 30 * 60 →
         authTokenOptional clock (Some token) = Next (jwtPayload token)).
Proof.
  intros Hrow Hf0 Hc. split; [done|]. rewrite (verifyUser_ok _ _ _ _ row) by done.
  eexists. split; [reflexivity|].
  rewrite authTokenOptional_with_cookie, access_token_at_the_gate. split; intros Hclock.
  - apply Z.leb_le in Hclock. by rewrite Hclock.
  - apply Z.leb_gt in Hclock. by rewrite Hclock.
Qed.

(** ** Changing and resetting the password *)

Lemma changePassword_writes e user oldPassword newPassword w row :
  Users w !! user = Some row →
  dbFault e 0 = false →
  compareHash oldPassword (Password row) = true →
  (8 ≤ String.length newPassword)%nat →
  dbFault e 1 = false →
  let row1 := applyUpdate (SetPassword (genPassHash e newPassword)) row in
  let w1 := setUsers (insert user row1) w in
  changePassword e user oldPassword newPassword w
  = if dbFault e 2 then (reply 500 "Internal server error", w1)
    else (reply 200 "Password changed successfully.",
          setUsers (insert user (applyUpdate (SetLastPasswordChange (now e)) row1)) w1).
Proof.
  intros Hrow Hf0 Hc Hlen Hf1. unfold changePassword. run. rewrite Hf0, Hrow, Hc. simpl.
  assert ((String.length newPassword <? 8)%nat = false) as -> by (apply Nat.ltb_ge; lia).
  rewrite (updateUser_found _ _ _ _ row), Hf1 by done. simpl.
  erewrite updateUser_found; [|apply lookup_insert_eq | done].
  by destruct (dbFault e 2).
Qed.

(** X12.  [changePassword] checks the old password before it looks at
    the new one: a wrong old password gets 401 whatever the new password
    is, also when it is too short; only with the right old password does
    a new password of fewer than 8 characters get 400.  Neither refusal
    writes anything. *)
Theorem changePassword_refuses_in_order e user oldPassword newPassword w row :
  Users w !! user = Some row →
  dbFault e 0 = false →
  (compareHash oldPassword (Password row) = false →
     changePassword e user oldPassword newPassword w
     = (reply 401 "The old password is invalid.", w))
  ∧ (compareHash oldPassword (Password row) = true →
     (String.length newPassword < 8)%nat →
     changePassword e user oldPassword newPassword w
     = (reply 400 "New password must be at least 8 characters long.", w)).
Proof.
  intros Hrow Hf0. unfold changePassword. run. rewrite Hf0, Hrow. split.
  - by intros ->.
  - intros -> Hlen. apply Nat.ltb_lt in Hlen. simpl. by rewrite Hlen.
Qed.

(** X13.  [changePassword] is two writes with no rollback.  If the first
    one raises, the call returns 500 and the account is as before.  If
    the first one answers and the second one raises, the call returns
    500 as well, but the stored hash is already the hash of the new
    password while [LastPasswordChange] is still the old stamp. *)
Theorem changePassword_is_not_atomic e user oldPassword newPassword w row :
  Users w !! user = Some row →
  dbFault e 0 = false →
  compareHash oldPassword (Password row) = true →
  (8 ≤ String.length newPassword)%nat →
  (dbFault e 1 = true →
     changePassword e user oldPassword newPassword w
     = (reply 500 "Internal server error", w))
  ∧ (dbFault e 1 = false → dbFault e 2 = true →
     ∃ w',
       changePassword e user oldPassword newPassword w
       = (reply 500 "Internal server error", w')
       ∧ Password <$> Users w' !! user = Some (genPassHash e newPassword)
       ∧ LastPasswordChange <$> Users w' !! user = Some (LastPasswordChange row)).
Proof.
  intros Hrow Hf0 Hc Hlen. split.
  - intros Hf1. unfold changePassword. run. rewrite Hf0, Hrow, Hc. simpl.
    assert ((String.length newPassword <? 8)%nat = false) as -> by (apply Nat.ltb_ge; lia).
    by rewrite (updateUser_found _ _ _ _ row), Hf1.
  - intros Hf1 Hf2. eexists. split.
    + rewrite (changePassword_writes _ _ _ _ _ row) by done. by rewrite Hf2.
    + simpl. by rewrite lookup_insert_eq.
Qed.

(** X14.  After a successful [changePassword] the stored hash is the
    hash of the new password and [LastPasswordChange] is the time of the
    call; [verifyUser] then accepts the new password whenever bcrypt
    accepts it against its own hash, and answers 401 to the old password
    whenever bcrypt rejects it against the new hash. *)
Theorem changePassword_then_login e user oldPassword newPassword w row e2 :
  Users w !! user = Some row →
  dbFault e 0 = false →
  compareHash oldPassword (Password row) = true →
  (8 ≤ String.length newPassword)%nat →
  dbFault e 1 = false → dbFault e 2 = false →
  dbFault e2 0 = false →
  ∃ w',
    changePassword e user oldPassword newPassword w
    = (reply 200 "Password changed successfully.", w')
    ∧ Password <$> Users w' !! user = Some (genPassHash e newPassword)
    ∧ LastPasswordChange <$> Users w' !! user = Some (now e)
    ∧ (bcrypt_compare newPassword (bcrypt_hash newPassword (salt e)) = true →
       status (verifyUser e2 user newPassword w').1 = 200)
    ∧ (bcrypt_compare oldPassword (bcrypt_hash newPassword (salt e)) = false →
       verifyUser e2 user oldPassword w' = (reply 401 "invalid login credentials", w')).
Proof.
  intros Hrow Hf0 Hc Hlen Hf1 Hf2 Hg0. eexists. split.
  - rewrite (changePassword_writes _ _ _ _ _ row) by done. by rewrite Hf2.
  - simpl. rewrite !lookup_insert_eq. split_and!; try done.
    + intros Hbc. erewrite verifyUser_ok; [done | apply lookup_insert_eq | done | done].
    + intros Hbc. unfold verifyUser. run. rewrite Hg0, lookup_insert_eq. simpl.
      unfold compareHash, genPassHash. by rewrite Hbc.
Qed.

Lemma sendPasswordResetEmail_ok e user w row :
  Users w !! user = Some row →
  Username row = user →
  dbFault e 0 = false →
  Verified row = "true"%string →
  60 * 15 ≤ now e - LastPasswordChange row →
  let code := randomBytesHex 24 (random e) in
  let token := {| username := user; value := code; type := "password_reset";
                  expiration := now e + 6 * 3600; newEmail := None |} in
  let w1 := setTokenTable (insert code token) w in
  let w2 := if emailSent e then pushMail (PasswordResetEmail (Email row) user code) w1
            else w1 in
  let jwt := getAccessJWT e (toObject (applyUpdate (SetLastPasswordChange (now e)) row)) in
  sendPasswordResetEmail e user w
  = ({| status := 200; message := Some "password reset email sent."%string;
        accessToken := Some jwt; refreshToken := None; verificationToken := None;
        responseUser := Some (decodeJWT jwt) |},
     if dbFault e 1 then w2
     else setUsers (insert user (applyUpdate (SetLastPasswordChange (now e)) row)) w2).
Proof.
  intros Hrow Hname Hf0 Hver Hge. unfold sendPasswordResetEmail. run.
  rewrite Hf0, Hrow, Hver. simpl.
  assert ((now e <? LastPasswordChange row + 60 * 15) = false) as -> by (apply Z.ltb_ge; lia).
  rewrite Hname. unfold Email.sendPasswordResetEmail, Email.send.
  destruct (emailSent e); run;
    (erewrite updateUser_found; [|exact Hrow | done]); by destruct (dbFault e 1).
Qed.

Lemma sendPasswordResetEmail_rate_limited e user w row :
  Users w !! user = Some row →
  dbFault e 0 = false →
  Verified row = "true"%string →
  now e - LastPasswordChange row < 60 * 15 →
  sendPasswordResetEmail e user w
  = (reply 429 "you have requested a password reset recently. Please try again later.", w).
Proof.
  intros Hrow Hf0 Hver Hlt. unfold sendPasswordResetEmail. run. rewrite Hf0, Hrow, Hver. simpl.
  assert ((now e <? LastPasswordChange row + 60 * 15) = true) as -> by (apply Z.ltb_lt; lia).
  done.
Qed.

(** X15.  [sendPasswordResetEmail] refuses an account that is not
    verified with 403 before it looks at the clock, and a verified
    account whose [LastPasswordChange] is less than 15 minutes old with
    429.  A refusal stores no token, sends no mail and leaves the stamp
    alone. *)
Theorem sendPasswordResetEmail_gates e user w row :
  Users w !! user = Some row →
  dbFault e 0 = false →
  (Verified row ≠ "true"%string →
     sendPasswordResetEmail e user w = (reply 403 "user is not verified", w))
  ∧ (Verified row = "true"%string →
     now e - LastPasswordChange row < 60 * 15 →
     sendPasswordResetEmail e user w
     = (reply 429 "you have requested a password reset recently. Please try again later.",
        w)).
Proof.
  intros Hrow Hf0. split.
  - intros Hver. unfold sendPasswordResetEmail. run. rewrite Hf0, Hrow.
    apply String.eqb_neq in Hver. by rewrite Hver.
  - intros Hver Hlt. by apply (sendPasswordResetEmail_rate_limited _ _ _ row).
Qed.

(** X16.  The reset flow composes.  The code that a successful
    [sendPasswordResetEmail] stores is accepted by [resetPassword] up to
    and including the second [now + 6 * 3600]: the account then holds the
    hash of the generated password and the code is consumed.  One second
    later the same code gets 410, is purged, and the password stays as it
    was. *)
Theorem sendPasswordResetEmail_then_resetPassword e user w row e2 :
  Users w !! user = Some row →
  Username row = user →
  dbFault e 0 = false → dbFault e 1 = false →
  Verified row = "true"%string →
  60 * 15 ≤ now e - LastPasswordChange row →
  dbFault e2 0 = false → dbFault e2 1 = false →
  let code := randomBytesHex 24 (random e) in
  let w1 := (sendPasswordResetEmail e user w).2 in
  (now e2 ≤ now e + 6 * 3600 →
     ∃ w2,
       resetPassword e2 code w1
       = (reply 200 "Password reset successful. Please check your email for the new password.",
          w2)
       ∧ Password <$> Users w2 !! user
         = Some (genPassHash e2 (generatedPassword e2 user))
       ∧ TokenTable w2 !! code = None)
  ∧ (now e + 6 * 3600 < now e2 →
     ∃ w2,
       resetPassword e2 code w1
       = (reply 410 "Verification code has expired. Please request a new password reset.",
          w2)
       ∧ Password <$> Users w2 !! user = Some (Password row)
       ∧ TokenTable w2 !! code = None).
Proof.
  intros Hrow Hname Hf0 Hf1 Hver Hge Hg0 Hg1 code w1. subst w1.
  rewrite (sendPasswordResetEmail_ok _ _ _ row) by done. rewrite Hf1. simpl.
  set (tok := {| username := user; value := code; type := "password_reset";
                 expiration := now e + 6 * 3600; newEmail := None |}).
  set (w1 := setUsers _ _).
  assert (TokenTable w1 !! code = Some tok) as Htok.
  { subst w1. destruct (emailSent e); simpl; apply lookup_insert_eq. }
  assert (Users w1 !! user = Some (applyUpdate (SetLastPasswordChange (now e)) row)) as Hrow1.
  { subst w1. simpl. apply lookup_insert_eq. }
  clearbody w1. split; intros Hclock.
  - eexists. split.
    + eapply resetPassword_ok; [exact Htok | done | exact Hclock | exact Hrow1 | done ..].
    + simpl. destruct (emailSent e2); simpl;
        by rewrite lookup_insert_eq, lookup_delete_eq.
  - eexists. split.
    + eapply resetPassword_expired; [exact Htok | done | exact Hclock].
    + simpl. by rewrite Hrow1, lookup_delete_eq.
Qed.


(** ** Changing the address *)

Lemma verifyEmailChange_ok e code w tok row address :
  TokenTable w !! code = Some tok →
  type tok = "email_change"%string →
  newEmail tok = Some address →
  now e ≤ expiration tok →
  Users w !! username tok = Some row →
  dbFault e 0 = false → dbFault e 1 = false →
  verifyEmailChange e code w
  = (reply 200 "Email address successfully updated.",
     setTokenTable (delete code)
       (setUsers (insert (username tok) (applyUpdate (SetEmail (Some address)) row)) w)).
Proof.
  intros Htok Hty Hnew Hexp Hrow Hf0 Hf1. unfold verifyEmailChange. run.
  rewrite Htok, Hty. simpl. apply Z.ltb_ge in Hexp. rewrite Hexp, Hf0, Hrow, Hnew.
  by rewrite (updateUser_found _ _ _ _ row), Hf1.
Qed.

(** X18.  The address change composes, and the new address is taken as
    it comes: for every string [newEmail] (it is never passed to
    [isValidEmail]), the code a successful [requestEmailChange] stores is
    accepted by [verifyEmailChange] up to and including the second
    [later + 6 * 3600] of the request; the account's [Email] is then
    [newEmail], the token is consumed, and using the code again gets
    410. *)
Theorem requestEmailChange_then_verifyEmailChange e user password newEmail w row e2 :
  Users w !! user = Some row →
  Username row = user →
  dbFault e 0 = false → dbFault e 1 = false →
  3 * 60 * 60 ≤ now e - LastEmailChange row →
  compareHash password (Password row) = true →
  dbFault e2 0 = false → dbFault e2 1 = false →
  now e2 ≤ later e + 6 * 3600 →
  let code := randomBytesHex 24 (random e) in
  let w1 := (requestEmailChange e user password newEmail w).2 in
  Email <$> Users w1 !! user = Some (Email row)
  ∧ ∃ w2,
      verifyEmailChange e2 code w1
      = (reply 200 "Email address successfully updated.", w2)
      ∧ Email <$> Users w2 !! user = Some newEmail
      ∧ TokenTable w2 !! code = None
      ∧ verifyEmailChange e2 code w2
        = (reply 410 "Verification token is invalid or has expired.", w2).
Proof.
  intros Hrow Hname Hf0 Hf1 Hge Hc Hg0 Hg1 Hclock code w1. subst w1.
  rewrite (requestEmailChange_ok _ _ _ _ _ row) by done. cbn [snd].
  set (tok := {| username := user; value := code; type := "email_change";
                 expiration := later e + 6 * 3600; newEmail := Some newEmail |}).
  set (w1 := setUsers _ _).
  assert (TokenTable w1 !! code = Some tok) as Htok.
  { subst w1. destruct (emailSent e); simpl; apply lookup_insert_eq. }
  assert (Users w1 !! user = Some (applyUpdate (SetLastEmailChange (now e)) row)) as Hrow1.
  { subst w1. simpl. apply lookup_insert_eq. }
  clearbody w1. split; [by rewrite Hrow1|]. eexists. split; [|split_and!].
  - eapply verifyEmailChange_ok;
      [exact Htok | done | done | exact Hclock | exact Hrow1 | done ..].
  - simpl. by rewrite lookup_insert_eq.
  - simpl. apply lookup_delete_eq.
  - unfold verifyEmailChange. run. by rewrite lookup_delete_eq.
Qed.

(** X19.  Unlike [verifyUser], neither [requestEmailChange] nor
    [sendPasswordResetEmail] removes the sensitive fields before it
    signs: the access token each of them returns on success carries the
    stored password hash under [Password] and the list of likes under
    [Liked]. *)
Theorem token_of_request_carries_password_hash e user password newEmail w row :
  Users w !! user = Some row →
  Username row = user →
  dbFault e 0 = false →
  (3 * 60 * 60 ≤ now e - LastEmailChange row →
   compareHash password (Password row) = true →
   dbFault e 1 = false →
   ∃ jwt,
     accessToken (requestEmailChange e user password newEmail w).1 = Some jwt
     ∧ jwtPayload jwt !! "Password" = Some (JString (Password row))
     ∧ jwtPayload jwt !! "Liked" = Some (JArray (Liked row)))
  ∧ (Verified row = "true"%string →
     60 * 15 ≤ now e - LastPasswordChange row →
     ∃ jwt,
       accessToken (sendPasswordResetEmail e user w).1 = Some jwt
       ∧ jwtPayload jwt !! "Password" = Some (JString (Password row))
       ∧ jwtPayload jwt !! "Liked" = Some (JArray (Liked row))).
Proof.
  intros Hrow Hname Hf0. split.
  - intros Hge Hc Hf1. rewrite (requestEmailChange_ok _ _ _ _ _ row) by done.
    eexists. split; [reflexivity|]. split; claim_lookup.
  - intros Hver Hge. rewrite (sendPasswordResetEmail_ok _ _ _ row) by done.
    eexists. split; [reflexivity|]. split; claim_lookup.
Qed.

(** ** Tokens that are not consumed *)

(** X20.  [verifyEmail] for an account that is no longer unverified
    answers 410 ['account already verified'] and does not consume the
    code: the token is still in the table afterwards, so every later use
    of it gets the same 410. *)
Theorem verifyEmail_already_verified_keeps_token e code w tok row :
  TokenTable w !! code = Some tok →
  type tok = "email_verification"%string →
  Users w !! username tok = Some row →
  Verified row ≠ "false"%string →
  dbFault e 0 = false →
  verifyEmail e code w = (reply 410 "account already verified", w)
  ∧ TokenTable (verifyEmail e code w).2 !! code = Some tok.
Proof.
  intros Htok Hty Hrow Hver Hf0.
  assert (verifyEmail e code w = (reply 410 "account already verified", w)) as Hrun.
  { unfold verifyEmail. run. rewrite Htok, Hty. simpl. rewrite Hf0, Hrow.
    apply String.eqb_neq in Hver. by rewrite Hver. }
  by rewrite Hrun.
Qed.

(** ** Deleting an account *)

(** X21.  [deleteUserAccount] does not roll back.  With the right
    password and a picture of its own, if S3 removes the picture and the
    token service then fails, the call returns 500 ['server error']: the
    picture is gone from the bucket while the account row, its tokens and
    its articles are all still there.  If S3 itself fails, the call
    returns 500 and nothing at all has changed. *)
Theorem deleteUserAccount_does_not_roll_back e user password w row id :
  Users w !! user = Some row →
  dbFault e 0 = false →
  compareHash password (Password row) = true →
  matchImageId (ProfilePic row) = Some id →
  id ≠ "pfp"%string →
  (s3Removed e = true → tokensDeleted e = false →
     ∃ w',
       deleteUserAccount e user password w = (reply 500 "server error", w')
       ∧ Bucket w' = delete id (Bucket w)
       ∧ Users w' = Users w ∧ TokenTable w' = TokenTable w
       ∧ ArticlesPublished w' = ArticlesPublished w
       ∧ ArticlesUnpublished w' = ArticlesUnpublished w)
  ∧ (s3Removed e = false →
     deleteUserAccount e user password w = (reply 500 "server error", w)).
Proof.
  intros Hrow Hf0 Hc Hid Hpfp. apply String.eqb_neq in Hpfp.
  unfold deleteUserAccount. run. rewrite Hf0, Hrow, Hc, Hid. simpl. rewrite Hpfp. simpl.
  unfold S3.removeImageFromS3, Tokens.deleteUserTokens. split.
  - intros -> ->. by eexists.
  - by intros ->.
Qed.

(** ** Rotating the picture *)

(** X22.  Two picture changes compose as the cooldown and the clean-up
    intend.  After a successful [changeProfilePic], a second call whose
    clock is less than [7 * 24 * 60 * 60] seconds after the stamp of the
    first gets 403 and changes nothing.  A second call after the window,
    with S3 answering, removes from the bucket the image the first call
    stored (the uuid alphabet is what the expression for the old picture
    accepts), stores the new one, and leaves the account with the new
    link. *)
Theorem changeProfilePic_twice e1 e2 user file1 file2 w row :
  Users w !! user = Some row →
  Username row = user →
  dbFault e1 0 = false → dbFault e1 1 = false → dbFault e1 2 = false →
  checkProfilePictureCooldown (later e1) (ProfilePicChange row) = true →
  s3Saved e1 = true →
  dbFault e2 0 = false →
  let w1 := (changeProfilePic e1 user file1 w).2 in
  Bucket w1 !! uuid e1
  = Some {| imageFile := file1; imageWidth := 350; imageHeight := 350 |}
  ∧ (later e2 - now e1 < 7 * 24 * 60 * 60 →
     changeProfilePic e2 user file2 w1
     = (reply 403 "the user profile picture was changed in the last week", w1))
  ∧ (7 * 24 * 60 * 60 ≤ later e2 - now e1 →
     dbFault e2 1 = false → dbFault e2 2 = false →
     s3Removed e2 = true → s3Saved e2 = true →
     uuid e1 ≠ EmptyString → allChars isHexDash (uuid e1) = true →
     uuid e2 ≠ uuid e1 →
     let w2 := (changeProfilePic e2 user file2 w1).2 in
     status (changeProfilePic e2 user file2 w1).1 = 200
     ∧ Bucket w2 !! uuid e1 = None
     ∧ Bucket w2 !! uuid e2
       = Some {| imageFile := file2; imageWidth := 350; imageHeight := 350 |}
     ∧ ProfilePic <$> Users w2 !! user = Some (newPictureLink e2)).
Proof.
  intros Hrow Hname Hf0 Hf1 Hf2 Hcool Hs3 Hg0 w1. subst w1.
  rewrite (changeProfilePic_ok _ _ _ _ row) by done. cbn [snd].
  set (local := applyUpdate (SetProfilePic (newPictureLink e1))
                  (applyUpdate (SetProfilePicChange (now e1)) row)).
  set (w1 := setUsers (insert user local) _).
  assert (Users w1 !! user = Some local) as Hrow1 by apply lookup_insert_eq.
  assert (Bucket w1 !! uuid e1
          = Some {| imageFile := file1; imageWidth := 350; imageHeight := 350 |}) as Hb1.
  { subst w1. simpl. destruct (truthy (Admin row) || truthy (CanPost row)); simpl;
      apply lookup_insert_eq. }
  clearbody w1. split; [done|]. split.
  - intros Hlt. apply (changeProfilePic_cooldown _ _ _ _ local); [done | done |].
    unfold checkProfilePictureCooldown, profilePicCooldown. simpl.
    apply Z.ltb_lt in Hlt. by rewrite Hlt.
  - intros Hge Hg1 Hg2 Hrem Hsave Hne Hall Hdiff.
    assert (checkProfilePictureCooldown (later e2) (ProfilePicChange local) = true) as Hcool2.
    { unfold checkProfilePictureCooldown, profilePicCooldown. simpl.
      apply Z.ltb_ge in Hge. by rewrite Hge. }
    cbv zeta. rewrite (changeProfilePic_ok _ _ _ _ local) by done.
    unfold afterStamp. simpl ProfilePic at 1.
    assert (matchOldImageId (ProfilePic local) = Some (uuid e1)) as ->.
    { apply matchOldImageId_built; done. }
    rewrite Hrem. simpl.
    destruct (truthy (Admin row) || truthy (CanPost row)); simpl;
      rewrite !lookup_insert_eq; split_and!; try done;
      by rewrite lookup_insert_ne, lookup_delete_eq.
Qed.

(** ** A reset password can be used *)

(** X23.  The password [resetPassword] mails is the password it stored:
    after a successful reset with the mailer answering, the last message
    in the outbox goes to the account's address and carries exactly the
    string whose hash is now in the row, and [verifyUser] with that
    string succeeds whenever bcrypt accepts a password against its own
    hash. *)
Theorem resetPassword_mails_the_stored_password e code w tok row e2 :
  TokenTable w !! code = Some tok →
  type tok = "password_reset"%string →
  now e ≤ expiration tok →
  Users w !! username tok = Some row →
  dbFault e 0 = false → dbFault e 1 = false →
  emailSent e = true →
  dbFault e2 0 = false →
  let password := generatedPassword e (username tok) in
  let w' := (resetPassword e code w).2 in
  Outbox w' = Outbox w ++ [NewPasswordEmail (Email row) (username tok) password]
  ∧ Password <$> Users w' !! username tok = Some (genPassHash e password)
  ∧ (bcrypt_compare password (bcrypt_hash password (salt e)) = true →
     status (verifyUser e2 (username tok) password w').1 = 200).
Proof.
  intros Htok Hty Hexp Hrow Hf0 Hf1 Hmail Hg0 password w'. subst w'.
  rewrite (resetPassword_ok _ _ _ tok row) by done. rewrite Hmail. simpl.
  rewrite lookup_insert_eq. split_and!; try done.
  intros Hbc. erewrite verifyUser_ok; [done | apply lookup_insert_eq | done | done].
Qed.

(** ** What every method keeps *)

Lemma sameAccount_refl row : sameAccount row row.
Proof. by repeat split. Qed.

Lemma sameAccount_trans r1 r2 r3 : sameAccount r1 r2 → sameAccount r2 r3 → sameAccount r1 r3.
Proof.
  intros (Hn & Hc & Hv) (Hn' & Hc' & Hv'). repeat split; [congruence | congruence | auto].
Qed.

Lemma steady_refl w : steady w w.
Proof.
  split; [|done]. intros u row Hrow. exists row. split; [done | apply sameAccount_refl].
Qed.

Lemma steady_trans w1 w2 w3 : steady w1 w2 → steady w2 w3 → steady w1 w3.
Proof.
  intros [He Ht] [He' Ht']. split; [|auto].
  intros u row3 Hrow3. destruct (He' u row3 Hrow3) as (row2 & Hrow2 & Hs').
  destruct (He u row2 Hrow2) as (row1 & Hrow1 & Hs).
  exists row1. split; [done | by eapply sameAccount_trans].
Qed.

(** A step that leaves the Users table alone and keeps the tokens under
    their values. *)
Lemma steady_frame w w' :
  Users w' = Users w → (tokensKeyed w → tokensKeyed w') → steady w w'.
Proof.
  intros Hu Ht. split; [|done]. intros u row Hrow. rewrite Hu in Hrow.
  exists row. split; [done | apply sameAccount_refl].
Qed.

Lemma keeps_ret {A} (a : A) : keeps steady (ret a).
Proof. intros w. apply steady_refl. Qed.

Lemma keeps_gets {A} (f : World → A) : keeps steady (gets f).
Proof. intros w. apply steady_refl. Qed.

Lemma keeps_modify (f : World → World) : (∀ w, steady w (f w)) → keeps steady (modify f).
Proof. intros Hf w. apply Hf. Qed.

Lemma keeps_bind {A B} (m : M A) (k : A → M B) :
  keeps steady m → (∀ a, keeps steady (k a)) → keeps steady (bind m k).
Proof.
  intros Hm Hk w. unfold bind. specialize (Hm w).
  destruct (m w) as [a w1] eqn:Hrun. simpl in Hm.
  eapply steady_trans; [exact Hm | apply Hk].
Qed.

Lemma steady_tokens_insert t w : steady w (setTokenTable (insert (value t) t) w).
Proof.
  apply steady_frame; [done|]. intros Hk c t'. simpl.
  rewrite lookup_insert. case_decide; [by intros [= <-] | apply Hk].
Qed.

Lemma steady_tokens_delete code w : steady w (setTokenTable (delete code) w).
Proof.
  apply steady_frame; [done|]. intros Hk c t'. simpl.
  rewrite lookup_delete. case_decide; [done | apply Hk].
Qed.

Lemma steady_tokens_filter (P : string * Token → Prop) `{!∀ x, Decision (P x)} w :
  steady w (setTokenTable (filter P) w).
Proof.
  apply steady_frame; [done|]. intros Hk c t'. simpl.
  intros [Hc _]%map_lookup_filter_Some. by apply Hk.
Qed.

Lemma steady_bucket f w : steady w (setBucket f w).
Proof. by apply steady_frame. Qed.

Lemma steady_articles f w : steady w (setArticles f w).
Proof. by apply steady_frame. Qed.

Lemma steady_unpublished f w : steady w (setArticlesUnpublished f w).
Proof. by apply steady_frame. Qed.

Lemma steady_published f w : steady w (setArticlesPublished f w).
Proof. by apply steady_frame. Qed.

Lemma steady_mail m w : steady w (pushMail m w).
Proof. by apply steady_frame. Qed.

Lemma steady_users_delete user w : steady w (setUsers (delete user) w).
Proof.
  split; [|done]. intros u row. simpl. rewrite lookup_delete.
  case_decide; [done|]. intros Hrow. exists row. split; [done | apply sameAccount_refl].
Qed.

Lemma steady_users_update user upd row w :
  Users w !! user = Some row →
  (∀ v, upd = SetVerified v → v = "true"%string) →
  steady w (setUsers (insert user (applyUpdate upd row)) w).
Proof.
  intros Hrow Hupd. split; [|done]. intros u row'. simpl. rewrite lookup_insert.
  case_decide as Hu.
  - subst u. intros [= <-]. exists row. split; [done|].
    repeat split; [done ..|]. intros Hver.
    destruct upd; simpl; try done. by apply Hupd.
  - intros Hrow'. exists row'. split; [done | apply sameAccount_refl].
Qed.

Lemma keeps_updateUser fault user upd :
  (∀ v, upd = SetVerified v → v = "true"%string) →
  keeps steady (updateUser fault user upd).
Proof.
  intros Hupd w. unfold updateUser.
  destruct (negb _); [apply steady_refl|].
  destruct (fieldValue upd); try apply steady_refl;
    (destruct fault; [apply steady_refl|]); run;
    (destruct (Users w !! user) as [row|] eqn:Hrow; [|apply steady_refl]);
    by apply steady_users_update.
Qed.

Lemma keeps_deleteUser fault user : keeps steady (deleteUser fault user).
Proof.
  intros w. unfold deleteUser. destruct fault; [apply steady_refl|]. run.
  destruct (Users w !! user); [apply steady_users_delete | apply steady_refl].
Qed.

Create HintDb steady.
#[local] Hint Resolve steady_tokens_insert steady_tokens_delete steady_tokens_filter
  steady_bucket steady_articles steady_unpublished steady_published steady_mail
  steady_users_delete : steady.

Ltac keeps_step :=
  lazymatch goal with
  | |- keeps _ (bind _ _) => apply keeps_bind; [|intros ?]
  | |- keeps _ (ret _) => apply keeps_ret
  | |- keeps _ (gets _) => apply keeps_gets
  | |- keeps _ (modify _) => apply keeps_modify; intros ?; auto with steady
  | |- keeps _ (updateUser _ _ _) => apply keeps_updateUser; intros ? ?; congruence
  | |- keeps _ (deleteUser _ _) => apply keeps_deleteUser
  | |- keeps _ (match ?x with _ => _ end) => destruct x
  | |- keeps _ (let _ := _ in _) => cbv zeta
  end.

Ltac keeps_all :=
  unfold getUser, Tokens.getToken, Tokens.deleteToken, Tokens.createToken,
    Tokens.deleteUserTokens, S3.removeImageFromS3, S3.saveImage,
    Email.sendEmailChangeVerificationEmail, Email.sendPasswordResetEmail,
    Email.sendNewPasswordEmail, Email.sendAccountVerificationEmail, Email.send,
    Articles.removeAllArticlesByUser;
  repeat keeps_step.

Lemma keeps_verifyUser e user password : keeps steady (verifyUser e user password).
Proof. unfold verifyUser. keeps_all. Qed.

Lemma keeps_verifyEmail e code : keeps steady (verifyEmail e code).
Proof. unfold verifyEmail. keeps_all. Qed.

Lemma keeps_verifyEmailChange e code : keeps steady (verifyEmailChange e code).
Proof. unfold verifyEmailChange. keeps_all. Qed.

Lemma keeps_requestEmailChange e user password address :
  keeps steady (requestEmailChange e user password address).
Proof. unfold requestEmailChange. keeps_all. Qed.

Lemma keeps_sendPasswordResetEmail e user : keeps steady (sendPasswordResetEmail e user).
Proof. unfold sendPasswordResetEmail. keeps_all. Qed.

Lemma keeps_resetPassword e code : keeps steady (resetPassword e code).
Proof. unfold resetPassword. keeps_all. Qed.

Lemma keeps_changePassword e user oldPassword newPassword :
  keeps steady (changePassword e user oldPassword newPassword).
Proof. unfold changePassword. keeps_all. Qed.

Lemma keeps_changeProfilePic e user file : keeps steady (changeProfilePic e user file).
Proof. unfold changeProfilePic. keeps_all. Qed.

Lemma keeps_deleteUserAccount e user password :
  keeps steady (deleteUserAccount e user password).
Proof. unfold deleteUserAccount. keeps_all. Qed.

Lemma steady_wellKeyed w w' : steady w w' → wellKeyed w → wellKeyed w'.
Proof.
  intros [He Ht] [Hk Htk]. split; [|auto].
  intros u row' Hrow'. destruct (He u row' Hrow') as (row & Hrow & Hn & _).
  rewrite Hn. by apply Hk.
Qed.

Lemma createUser_wellKeyed e clock3 user password email canPost admin w :
  wellKeyed w → wellKeyed (createUser e clock3 user password email canPost admin w).2.
Proof.
  intros [Hk Htk]. unfold createUser.
  destruct (negb _); [done|]. destruct (_ <? _)%nat; [done|]. run.
  destruct (if dbFault e 0 then None else Users w !! user); [done|].
  destruct (dbFault e 1); [done|].
  unfold Email.sendAccountVerificationEmail, Email.send.
  assert (wellKeyed
            (setTokenTable
               (insert (randomBytesHex 24 (random e))
                  (registrationToken user (randomBytesHex 24 (random e))))
               (setUsers
                  (insert user
                     {| Username := user; Password := genPassHash e password;
                        Email := email; Admin := admin; CanPost := canPost;
                        Verified := "false"; LastPasswordChange := later e;
                        LastEmailChange := clock3; Liked := [];
                        ProfilePic := defaultProfilePic; ProfilePicChange := PicNull;
                        AccountCreated := now e |}) w))) as Hwk.
  { split.
    - intros u row. simpl. rewrite lookup_insert. case_decide; [by intros [= <-] | apply Hk].
    - intros c t. simpl. rewrite lookup_insert. case_decide; [by intros [= <-] | apply Htk]. }
  by destruct (emailSent e).
Qed.

(** X24.  No method other than [createUser] ever adds an account, and
    none of them rewrites an account's identity: from the world a call
    starts in to the world it leaves, every row that is still in the
    Users table was there before under the same key, with the same
    [Username] and the same [AccountCreated], and with [Verified] still
    ['true'] if it was ['true'].  This holds on every path of every
    method, faults included. *)
Theorem methods_keep_every_account
    e user password address code oldPassword newPassword file w :
  evolves w (verifyUser e user password w).2
  ∧ evolves w (verifyEmail e code w).2
  ∧ evolves w (verifyEmailChange e code w).2
  ∧ evolves w (requestEmailChange e user password address w).2
  ∧ evolves w (sendPasswordResetEmail e user w).2
  ∧ evolves w (resetPassword e code w).2
  ∧ evolves w (changePassword e user oldPassword newPassword w).2
  ∧ evolves w (changeProfilePic e user file w).2
  ∧ evolves w (deleteUserAccount e user password w).2.
Proof.
  split_and!.
  - apply keeps_verifyUser.
  - apply keeps_verifyEmail.
  - apply keeps_verifyEmailChange.
  - apply keeps_requestEmailChange.
  - apply keeps_sendPasswordResetEmail.
  - apply keeps_resetPassword.
  - apply keeps_changePassword.
  - apply keeps_changeProfilePic.
  - apply keeps_deleteUserAccount.
Qed.

(** X25.  The two tables stay keyed.  If every row of the Users table
    sits under its own [Username] and every token under its own [value],
    the same is true after any call of any method, [createUser]
    included, on every path. *)
Theorem methods_keep_tables_keyed
    e clock3 user password email canPost admin address code oldPassword newPassword file w :
  wellKeyed w →
  wellKeyed (createUser e clock3 user password email canPost admin w).2
  ∧ wellKeyed (verifyUser e user password w).2
  ∧ wellKeyed (verifyEmail e code w).2
  ∧ wellKeyed (verifyEmailChange e code w).2
  ∧ wellKeyed (requestEmailChange e user password address w).2
  ∧ wellKeyed (sendPasswordResetEmail e user w).2
  ∧ wellKeyed (resetPassword e code w).2
  ∧ wellKeyed (changePassword e user oldPassword newPassword w).2
  ∧ wellKeyed (changeProfilePic e user file w).2
  ∧ wellKeyed (deleteUserAccount e user password w).2.
Proof.
  intros Hw. split_and!; [by apply createUser_wellKeyed|..];
    (eapply steady_wellKeyed; [|exact Hw]).
  - apply keeps_verifyUser.
  - apply keeps_verifyEmail.
  - apply keeps_verifyEmailChange.
  - apply keeps_requestEmailChange.
  - apply keeps_sendPasswordResetEmail.
  - apply keeps_resetPassword.
  - apply keeps_changePassword.
  - apply keeps_changeProfilePic.
  - apply keeps_deleteUserAccount.
Qed.

(** ** The picture id that account deletion reads *)

Lemma stripPrefix_cut p0 u t :
  allChars notSlash p0 = true →
  stripPrefix (p0 ++ "/") (u ++ "/") = None →
  stripPrefix (p0 ++ "/") (u ++ "/" ++ t) = None.
Proof.
  intros Hp0. revert u. induction p0 as [|a p0 IH]; intros u.
  - destruct u as [|b u]; [done|].
    change ("" ++ "/")%string with "/"%string. rewrite !string_app_cons.
    cbn [stripPrefix]. by destruct (Ascii.eqb "/" b).
  - simpl in Hp0. apply andb_prop in Hp0 as [Ha Hp0].
    rewrite string_app_cons. destruct u as [|b u].
    + intros _. change ("" ++ "/" ++ t)%string with (String "/" t).
      cbn [stripPrefix]. unfold notSlash in Ha. rewrite negb_true_iff in Ha. by rewrite Ha.
    + rewrite !string_app_cons. cbn [stripPrefix].
      destruct (Ascii.eqb a b); [by apply IH | done].
Qed.

Lemma beforeLastDot_png id : beforeLastDot (id ++ ".png") = Some id.
Proof.
  induction id as [|c id IH]; [done|]. rewrite string_app_cons. simpl. by rewrite IH.
Qed.

Lemma imageIdAt_here id :
  id ≠ EmptyString → allChars notSlash id = true →
  imageIdAt ("images/" ++ id ++ ".png") = Some id.
Proof.
  intros Hid Hall. unfold imageIdAt.
  change (stripPrefix "images/" ("images/" ++ id ++ ".png"))
    with (Some (id ++ ".png")%string).
  cbv iota beta. rewrite <- (string_app_nil_r (id ++ ".png")).
  rewrite (span_unique (λ c, negb (Ascii.eqb c "/")) (id ++ ".png") "");
    [|rewrite allChars_app; unfold notSlash in Hall; by rewrite Hall | by left].
  rewrite beforeLastDot_png. by destruct id.
Qed.

Lemma matchImageId_after q id :
  firstMatch (stripPrefix "images/") (q ++ "/") = None →
  id ≠ EmptyString → allChars notSlash id = true →
  firstMatch imageIdAt (q ++ "/" ++ "images/" ++ id ++ ".png") = Some id.
Proof.
  intros Hq Hid Hall. induction q as [|c q IH].
  - change ("" ++ "/" ++ "images/" ++ id ++ ".png")%string
      with (String "/" ("images/" ++ id ++ ".png")).
    rewrite firstMatch_unfold.
    change (imageIdAt (String "/" ("images/" ++ id ++ ".png"))) with (@None string).
    by rewrite firstMatch_unfold, imageIdAt_here.
  - rewrite firstMatch_unfold in Hq.
    destruct (stripPrefix "images/" (String c q ++ "/")) eqn:Hhere; [done|].
    rewrite string_app_cons in Hq.
    rewrite firstMatch_unfold. unfold imageIdAt at 1.
    rewrite (stripPrefix_cut "images" (String c q)) by done.
    rewrite string_app_cons. by apply IH.
Qed.

Lemma matchImageId_built link id :
  firstMatch (stripPrefix "images/") (link ++ "/") = None →
  id ≠ EmptyString → allChars notSlash id = true →
  matchImageId (link ++ "/images/" ++ id ++ ".png") = Some id.
Proof. intros. by apply matchImageId_after. Qed.

(** X26.  The picture id that [deleteUserAccount] extracts from a link
    [prefix/images/id.png] is [id], for every non-empty [id] without a
    slash (dots inside the id are kept), provided [images/] starts
    nowhere in [prefix/]; the expression is not anchored, so an earlier
    [images/] segment in the prefix would be read instead. *)
Theorem matchImageId_reads_back_built_link link id :
  firstMatch (stripPrefix "images/") (link ++ "/") = None →
  id ≠ EmptyString →
  allChars notSlash id = true →
  matchImageId (link ++ "/images/" ++ id ++ ".png") = Some id.
Proof. apply matchImageId_built. Qed.

Lemma hexDash_notSlash id : allChars isHexDash id = true → allChars notSlash id = true.
Proof.
  induction id as [|c id IH]; [done|]. simpl. intros [Hc Hall]%andb_prop.
  rewrite IH by done. destruct (Ascii.eqb c "/") eqn:Hs; [|by unfold notSlash; rewrite Hs].
  apply Ascii.eqb_eq in Hs as ->. done.
Qed.

(** X27.  Picture change and account deletion compose: when the
    configured link prefix holds no [images/] segment, the image that a
    successful [changeProfilePic] stored under its uuid is the one
    [deleteUserAccount] removes; with the right password and the
    collaborators answering, the call returns 200, the image is gone from
    the bucket and the account row is gone from the table. *)
Theorem changeProfilePic_then_deleteUserAccount e1 e2 user file password w row :
  Users w !! user = Some row →
  Username row = user →
  dbFault e1 0 = false → dbFault e1 1 = false → dbFault e1 2 = false →
  checkProfilePictureCooldown (later e1) (ProfilePicChange row) = true →
  s3Saved e1 = true →
  firstMatch (stripPrefix "images/") (AWS_S3_LINK ++ "/") = None →
  uuid e1 ≠ EmptyString → allChars isHexDash (uuid e1) = true →
  compareHash password (Password row) = true →
  dbFault e2 0 = false → dbFault e2 1 = false →
  s3Removed e2 = true → tokensDeleted e2 = true → status (articlesRemoved e2) = 200 →
  let w1 := (changeProfilePic e1 user file w).2 in
  is_Some (Bucket w1 !! uuid e1)
  ∧ ∃ w2,
      deleteUserAccount e2 user password w1 = (reply 200 "account deleted succesfuly", w2)
      ∧ Bucket w2 !! uuid e1 = None
      ∧ Users w2 !! user = None.
Proof.
  intros Hrow Hname Hf0 Hf1 Hf2 Hcool Hs3 Hlink Hne Hall Hc Hg0 Hg1 Hrem Htok Hart w1.
  subst w1. rewrite (changeProfilePic_ok _ _ _ _ row) by done. cbn [snd].
  set (local := applyUpdate (SetProfilePic (newPictureLink e1))
                  (applyUpdate (SetProfilePicChange (now e1)) row)).
  set (w1 := setUsers (insert user local) _).
  assert (Users w1 !! user = Some local) as Hrow1 by apply lookup_insert_eq.
  assert (is_Some (Bucket w1 !! uuid e1)) as Hb1.
  { subst w1. simpl. destruct (truthy (Admin row) || truthy (CanPost row)); simpl;
      rewrite lookup_insert_eq; by eexists. }
  clearbody w1. split; [done|].
  assert (matchImageId (ProfilePic local) = Some (uuid e1)) as Hid.
  { apply matchImageId_built; [done | done | by apply hexDash_notSlash]. }
  assert (String.eqb (uuid e1) "pfp" = false) as Hpfp.
  { apply String.eqb_neq. intros Heq. by rewrite Heq in Hall. }
  eexists. split.
  - rewrite (deleteUserAccount_steps _ _ _ _ local (uuid e1)) by done.
    apply Z.eqb_eq in Hart. by rewrite Hart, Hg1.
  - rewrite Hpfp. simpl. by rewrite !lookup_delete_eq.
Qed.

(** X28.  An account that never changed its picture is deleted without
    S3: its link is the default one, whose id is ['pfp'], so
    [deleteUserAccount] after [createUser] succeeds even when S3 would
    refuse every request, leaves the bucket as it was, and removes the
    row together with the pending verification token. *)
Theorem register_then_deleteUserAccount e clock3 user password email canPost admin w e2 :
  bcrypt_compare password (bcrypt_hash password (salt e)) = true →
  isValidEmail email = true →
  (8 ≤ String.length password)%nat →
  Users w !! user = None →
  dbFault e 0 = false → dbFault e 1 = false →
  dbFault e2 0 = false → dbFault e2 1 = false →
  s3Removed e2 = false →
  tokensDeleted e2 = true → status (articlesRemoved e2) = 200 →
  let w1 := (createUser e clock3 user password email canPost admin w).2 in
  is_Some (TokenTable w1 !! registrationCode e)
  ∧ ∃ w2,
      deleteUserAccount e2 user password w1 = (reply 200 "account deleted succesfuly", w2)
      ∧ Bucket w2 = Bucket w
      ∧ Users w2 !! user = None
      ∧ TokenTable w2 !! registrationCode e = None.
Proof.
  intros Hbc Hmail Hlen Hfree Hf0 Hf1 Hg0 Hg1 Hrem Htok Hart w1. subst w1.
  rewrite createUser_ok by auto. cbn [snd].
  set (w1 := if emailSent e then _ else _).
  assert (Users w1 !! user
          = Some (registeredRow e clock3 user password email canPost admin)) as Hrow.
  { subst w1. destruct (emailSent e); simpl; apply lookup_insert_eq. }
  assert (TokenTable w1 !! registrationCode e
          = Some (registrationToken user (registrationCode e))) as Hcode.
  { subst w1. destruct (emailSent e); simpl; apply lookup_insert_eq. }
  assert (Bucket w1 = Bucket w) as Hbucket by (subst w1; by destruct (emailSent e)).
  clearbody w1. split; [by rewrite Hcode|]. eexists. split.
  - rewrite (deleteUserAccount_steps _ _ _ _ _ "pfp" Hrow) by done.
    apply Z.eqb_eq in Hart. by rewrite Hart, Hg1.
  - simpl. rewrite lookup_delete_eq. split_and!; try done.
    apply map_lookup_filter_None. right. intros t Ht. rewrite Hcode in Ht.
    inversion Ht; subst. simpl. tauto.
Qed.

End UserManagment.

(** ** The helpers on sample inputs *)

Example randomBytesHex_2 : randomBytesHex 2 (λ i, if (i =? 0)%nat then 10 else 255) = "0aff"%string.
Proof. reflexivity. Qed.

Example matchImageId_default :
  matchImageId "https://project-catalog-storage.s3.us-east-2.amazonaws.com/images/pfp.png"
  = Some "pfp"%string.
Proof. reflexivity. Qed.

Example matchOldImageId_default :
  matchOldImageId "https://project-catalog-storage.s3.us-east-2.amazonaws.com/images/pfp.png"
  = None.
Proof. reflexivity. Qed.

Example matchOldImageId_uuid :
  matchOldImageId "https://cdn.example/images/0b9e-4f1a.png" = Some "0b9e-4f1a"%string.
Proof. reflexivity. Qed.

Example matchImageId_keeps_inner_dots :
  matchImageId "https://cdn.example/images/a.b.png" = Some "a.b"%string.
Proof. reflexivity. Qed.

Example matchImageId_none : matchImageId "https://cdn.example/avatars/me.png" = None.
Proof. reflexivity. Qed.

Example cooldown_boundary :
  checkProfilePictureCooldown 604800 (PicAt 0) = true
  ∧ checkProfilePictureCooldown 604799 (PicAt 0) = false
  ∧ checkProfilePictureCooldown 0 PicNull = true.
Proof. done. Qed.

(** ** The methods on the fixture *)

(** Claim C1, at a failing input.  The token under ["c0de1"] is an
    ['email_change'] token whose expiration (500) is strictly before the
    clock (1000000): [verifyEmailChange] answers 410 and leaves the user
    alone, but the world comes back unchanged, so the expired token is
    still in the table.  [resetPassword] on the expired
    ['password_reset'] token under ["c0de2"] does delete it. *)
Theorem verifyEmailChange_keeps_expired_token :
  expiration Fixture.staleEmailChange < now Fixture.env
  ∧ verifyEmailChange Fixture.env "c0de1" Fixture.world
    = (reply 410 "Verification token is invalid or has expired.", Fixture.world)
  ∧ TokenTable Fixture.world !! "c0de1" = Some Fixture.staleEmailChange
  ∧ TokenTable (resetPassword Fixture.hash Fixture.env "c0de2" Fixture.world).2 !! "c0de2"
    = None.
Proof. split_and!; [done | by vm_compute | by vm_compute | by vm_compute]. Qed.

(** Claim C3, at a failing input.  With every random byte [0xab],
    [resetPassword] for alice's unexpired token generates
    ['alice' + 'abababababababab']: sixteen hexadecimal characters after
    the username, not eight.  The hash of that password is stored, the
    token is deleted and the call returns 200 although the mailer failed
    (the outbox stays empty). *)
Theorem resetPassword_appends_16_hex_characters :
  generatedPassword Fixture.envNoMail "alice" = "aliceabababababababab"%string
  ∧ String.length (generatedPassword Fixture.envNoMail "alice")
    = (String.length "alice" + 16)%nat
  ∧ ∃ w',
      resetPassword Fixture.hash Fixture.envNoMail "c0de3" Fixture.world
      = (reply 200 "Password reset successful. Please check your email for the new password.", w')
      ∧ Password <$> Users w' !! "alice"
        = Some (Fixture.hash "aliceabababababababab" "salt")
      ∧ TokenTable w' !! "c0de3" = None
      ∧ Outbox w' = [].
Proof.
  split_and!; [done | done |].
  exists (resetPassword Fixture.hash Fixture.envNoMail "c0de3" Fixture.world).2.
  split_and!; by vm_compute.
Qed.

(** Claim C4, at a failing input.  bob has [Admin = 'false'] and
    [CanPost = 'false'], so [checkCanPost] is false, yet
    [changeProfilePic] re-points his published article [a1] and his
    unpublished article [a2] to the new link; alice's article [a3] keeps
    its link. *)
Theorem changeProfilePic_repoints_articles_of_non_author :
  checkCanPost Fixture.bob = false
  ∧ AuthorProfilePic <$> ArticlesPublished Fixture.world !! "a1"
    = Some "https://cdn.example/images/0a1b-2c3d.png"%string
  ∧ ∃ r w',
      changeProfilePic Fixture.link Fixture.key Fixture.env "bob" "png" Fixture.world = (r, w')
      ∧ status r = 200
      ∧ AuthorProfilePic <$> ArticlesPublished w' !! "a1"
        = Some "https://cdn.example/images/9f8e-7d6c.png"%string
      ∧ AuthorProfilePic <$> ArticlesUnpublished w' !! "a2"
        = Some "https://cdn.example/images/9f8e-7d6c.png"%string
      ∧ AuthorProfilePic <$> ArticlesPublished w' !! "a3" = Some Fixture.defaultPic.
Proof.
  split_and!; [done | by vm_compute |]. do 2 eexists.
  split_and!; [apply surjective_pairing | by vm_compute ..].
Qed.

(** Claim C5, at a failing input.  [requestEmailChange] for alice at
    clock 1000000 succeeds and stores [LastEmailChange = 1000000]
    (leaving [LastPasswordChange = 1000]), but the access token it
    returns carries [LastEmailChange = 1000] and
    [LastPasswordChange = 1000000]. *)
Theorem requestEmailChange_token_carries_stale_claims :
  ∃ r w' jwt,
    requestEmailChange Fixture.compare Fixture.key Fixture.env
      "alice" "password1" "alice@new.example" Fixture.world = (r, w')
    ∧ status r = 200
    ∧ accessToken r = Some jwt
    ∧ LastEmailChange <$> Users w' !! "alice" = Some 1000000
    ∧ LastPasswordChange <$> Users w' !! "alice" = Some 1000
    ∧ jwtPayload jwt !! "LastEmailChange" = Some (JNumber 1000)
    ∧ jwtPayload jwt !! "LastPasswordChange" = Some (JNumber 1000000).
Proof.
  do 3 eexists. split_and!; [apply surjective_pairing | by vm_compute ..].
Qed.

Lemma deleteUserAccount_password_gate_witness :
  deleteUserAccount Fixture.compare Fixture.env "bob" "guess" Fixture.world
  = (reply 403 "invalid password.", Fixture.world)
  ∧ (∃ w',
       deleteUserAccount Fixture.compare Fixture.env "bob" "password2" Fixture.world
       = (reply 200 "account deleted succesfuly", w')
       ∧ Users w' = delete "bob" (Users Fixture.world)
       ∧ Bucket w' = delete "0a1b-2c3d" (Bucket Fixture.world))
  ∧ (∃ w',
       deleteUserAccount Fixture.compare Fixture.envArticlesFail "bob" "password2" Fixture.world
       = (reply 500 "server error", w')
       ∧ Users w' = Users Fixture.world).
Proof.
  split_and!.
  - apply (deleteUserAccount_password_gate Fixture.compare Fixture.env
             "bob" "guess" Fixture.world Fixture.bob); by vm_compute.
  - destruct (deleteUserAccount_password_gate Fixture.compare Fixture.env
                "bob" "password2" Fixture.world Fixture.bob) as [_ H]; [by vm_compute..|].
    destruct (H eq_refl "0a1b-2c3d"%string) as [H1 _]; [by vm_compute..|].
    destruct H1 as (w' & Hrun & Husers & Hbucket & _); [by vm_compute..|].
    exists w'. by split_and!.
  - destruct (deleteUserAccount_password_gate Fixture.compare Fixture.envArticlesFail
                "bob" "password2" Fixture.world Fixture.bob) as [_ H]; [by vm_compute..|].
    destruct (H eq_refl "0a1b-2c3d"%string) as [_ H2]; [by vm_compute..|].
    apply H2. by vm_compute.
Defined.

Lemma verifyUser_uniform_failure_and_stripped_claims_witness :
  verifyUser Fixture.compare Fixture.key Fixture.refreshKey Fixture.env
    "dave" "password1" Fixture.world
  = (reply 401 "invalid login credentials", Fixture.world)
  ∧ verifyUser Fixture.compare Fixture.key Fixture.refreshKey Fixture.env
      "alice" "guess" Fixture.world
    = (reply 401 "invalid login credentials", Fixture.world)
  ∧ ∃ token refresh claims,
      verifyUser Fixture.compare Fixture.key Fixture.refreshKey Fixture.env
        "alice" "password1" Fixture.world
      = ({| status := 200; message := None;
            accessToken := Some token; refreshToken := Some refresh;
            verificationToken := None; responseUser := Some claims |}, Fixture.world)
      ∧ ∀ k, k = "Password"%string ∨ k = "Liked"%string →
          jwtPayload token !! k = None
          ∧ jwtPayload refresh !! k = None
          ∧ claims !! k = None.
Proof.
  split_and!.
  - apply (verifyUser_uniform_failure_and_stripped_claims Fixture.compare Fixture.key
             Fixture.refreshKey Fixture.env "dave" "password1" Fixture.world).
    left. by vm_compute.
  - apply (verifyUser_uniform_failure_and_stripped_claims Fixture.compare Fixture.key
             Fixture.refreshKey Fixture.env "alice" "guess" Fixture.world).
    right. exists Fixture.alice. split; by vm_compute.
  - apply (proj2 (verifyUser_uniform_failure_and_stripped_claims Fixture.compare Fixture.key
             Fixture.refreshKey Fixture.env "alice" "password1" Fixture.world) Fixture.alice);
      by vm_compute.
Defined.

Lemma wrong_type_token_never_applied_witness :
  verifyEmail Fixture.env "c0de3" Fixture.world
  = (reply 404 "invalid or expired verification code", Fixture.world)
  ∧ verifyEmailChange Fixture.env "c0de3" Fixture.world
    = (reply 410 "Verification token is invalid or has expired.", Fixture.world)
  ∧ resetPassword Fixture.hash Fixture.env "c0de4" Fixture.world
    = (reply 404 "Invalid or expired verification code.", Fixture.world).
Proof.
  destruct (wrong_type_token_never_applied Fixture.hash Fixture.env "c0de3"
              Fixture.world Fixture.liveReset) as (H1 & H2 & _); [by vm_compute|].
  destruct (wrong_type_token_never_applied Fixture.hash Fixture.env "c0de4"
              Fixture.world Fixture.carolCode) as (_ & _ & H3); [by vm_compute|].
  split_and!; [apply H1 | apply H2 | apply H3]; by vm_compute.
Defined.

Lemma changeProfilePic_cooldown_gate_witness :
  changeProfilePic Fixture.link Fixture.key Fixture.env "carol" "png" Fixture.world
  = (reply 403 "the user profile picture was changed in the last week", Fixture.world)
  ∧ (∃ r w',
       changeProfilePic Fixture.link Fixture.key Fixture.env "bob" "png" Fixture.world = (r, w')
       ∧ status r = 200
       ∧ ProfilePic <$> Users w' !! "bob" = Some "https://cdn.example/images/9f8e-7d6c.png"%string
       ∧ ProfilePicChange <$> Users w' !! "bob" = Some (PicAt 1000000))
  ∧ (∃ r w',
       changeProfilePic Fixture.link Fixture.key Fixture.env "alice" "png" Fixture.world = (r, w')
       ∧ status r = 200
       ∧ ProfilePic <$> Users w' !! "alice" = Some "https://cdn.example/images/9f8e-7d6c.png"%string
       ∧ ProfilePicChange <$> Users w' !! "alice" = Some (PicAt 1000000)).
Proof.
  split_and!.
  - destruct (changeProfilePic_cooldown_gate Fixture.link Fixture.key Fixture.env
                "carol" "png" Fixture.world Fixture.carol) as [H _]; [by vm_compute..|].
    apply (H 999000); by vm_compute.
  - destruct (changeProfilePic_cooldown_gate Fixture.link Fixture.key Fixture.env
                "bob" "png" Fixture.world Fixture.bob) as [_ H]; [by vm_compute..|].
    apply H; [right; exists 100; split; by vm_compute | by vm_compute ..].
  - destruct (changeProfilePic_cooldown_gate Fixture.link Fixture.key Fixture.env
                "alice" "png" Fixture.world Fixture.alice) as [_ H]; [by vm_compute..|].
    apply H; [by left | by vm_compute ..].
Defined.

Lemma changeProfilePic_stamp_first_witness :
  changeProfilePic Fixture.link Fixture.key Fixture.envStampFault "bob" "png" Fixture.world
  = (reply 500 "Internal server error", Fixture.world)
  ∧ ∃ w',
      changeProfilePic Fixture.link Fixture.key Fixture.envNoSave "bob" "png" Fixture.world
      = (reply 500 "server error", w')
      ∧ ProfilePicChange <$> Users w' !! "bob" = Some (PicAt 1000000)
      ∧ ProfilePic <$> Users w' !! "bob" = Some "https://cdn.example/images/0a1b-2c3d.png"%string.
Proof.
  split.
  - apply (changeProfilePic_stamp_first Fixture.link Fixture.key Fixture.envStampFault
             "bob" "png" Fixture.world Fixture.bob); by vm_compute.
  - destruct (changeProfilePic_stamp_first Fixture.link Fixture.key Fixture.envNoSave
                "bob" "png" Fixture.world Fixture.bob) as [_ H]; [by vm_compute..|].
    destruct H as (w' & Hrun & _ & Hstamp & Hpic); [by vm_compute..|].
    exists w'. by split_and!.
Defined.

Lemma verifyEmail_ignores_expiration_witness :
  expiration Fixture.carolCode < now Fixture.env
  ∧ ∃ w',
      verifyEmail Fixture.env "c0de4" Fixture.world = (reply 200 "email verified", w')
      ∧ Verified <$> Users w' !! "carol" = Some "true"%string
      ∧ TokenTable w' !! "c0de4" = None.
Proof.
  split; [by vm_compute|].
  destruct (verifyEmail_ignores_expiration Fixture.env "c0de4" Fixture.world
              Fixture.carolCode Fixture.carol) as (w' & Hrun & _ & Hver & Htok);
    [by vm_compute..|].
  exists w'. by split_and!.
Defined.

(** ** The further properties on the fixture *)

Ltac discharge :=
  first [ by vm_compute | vm_compute; lia | by (left; vm_compute) | by (right; vm_compute)
        | by eexists ].

Lemma fixture_wellKeyed : wellKeyed Fixture.world.
Proof.
  split.
  - intros u row. unfold Fixture.world. simpl.
    repeat (rewrite lookup_insert; case_decide; [by intros [= <-]; subst|]).
    by rewrite lookup_empty.
  - intros c t. unfold Fixture.world. simpl.
    repeat (rewrite lookup_insert; case_decide; [by intros [= <-]; subst|]).
    by rewrite lookup_empty.
Defined.

Lemma isValidEmail_shape_witness : isValidEmail "alice@x.com" = true.
Proof.
  apply isValidEmail_shape. exists "alice"%string, "x"%string, "com"%string.
  by vm_compute.
Defined.

Lemma matchOldImageId_reads_back_built_link_witness :
  matchOldImageId "https://cdn.example/images/9f8e-7d6c.png" = Some "9f8e-7d6c"%string.
Proof.
  apply (matchOldImageId_reads_back_built_link "https://cdn.example" "9f8e-7d6c"); discharge.
Defined.

Lemma matchImageId_reads_back_built_link_witness :
  matchImageId "https://cdn.example/images/me.v2.png" = Some "me.v2"%string.
Proof.
  apply (matchImageId_reads_back_built_link "https://cdn.example" "me.v2"); discharge.
Defined.

Lemma createUser_refuses_in_order_witness :
  createUser Fixture.hash Fixture.env 1000000 "dave" "pw" "dave at x.com" "true" "false"
    Fixture.world
  = (reply 400 "invalid email address", Fixture.world)
  ∧ createUser Fixture.hash Fixture.env 1000000 "dave" "pw" "dave@x.com" "true" "false"
      Fixture.world
    = (reply 400 "password must be at least 8 characters long", Fixture.world)
  ∧ createUser Fixture.hash Fixture.env 1000000 "alice" "password4" "dave@x.com" "true" "false"
      Fixture.world
    = (reply 400 "username is already in use", Fixture.world).
Proof.
  split_and!.
  - apply (createUser_refuses_in_order Fixture.hash Fixture.env 1000000
             "dave" "pw" "dave at x.com" "true" "false" Fixture.world); discharge.
  - apply (createUser_refuses_in_order Fixture.hash Fixture.env 1000000
             "dave" "pw" "dave@x.com" "true" "false" Fixture.world); discharge.
  - apply (createUser_refuses_in_order Fixture.hash Fixture.env 1000000
             "alice" "password4" "dave@x.com" "true" "false" Fixture.world); discharge.
Defined.
Lemma createUser_registers_witness :
  ∃ w' row,
    createUser Fixture.hash Fixture.env 1000000 "dave" "password4" "dave@x.com" "true" "false"
      Fixture.world
    = (reply 200 "user created successfully", w')
    ∧ Users w' = <["dave" := row]> (Users Fixture.world)
    ∧ Verified row = "false"%string
    ∧ ProfilePic row = defaultProfilePic
    ∧ ProfilePicChange row = PicNull.
Proof.
  destruct (createUser_registers Fixture.hash Fixture.env 1000000
              "dave" "password4" "dave@x.com" "true" "false" Fixture.world)
    as (w' & row & Hrun & Husers & _ & _ & Hver & Hpic & Hstamp & _); [discharge..|].
  exists w', row. by split_and!.
Defined.

Lemma createUser_overwrites_after_failed_read_witness :
  Verified <$> Users Fixture.world !! "alice" = Some "true"%string
  ∧ ∃ w',
      createUser Fixture.hash Scenario.envReadFault 1000000
        "alice" "password9" "mallory@x.com" "true" "false" Fixture.world
      = (reply 200 "user created successfully", w')
      ∧ Verified <$> Users w' !! "alice" = Some "false"%string.
Proof.
  split; [by vm_compute|].
  destruct (createUser_overwrites_after_failed_read Fixture.hash Scenario.envReadFault 1000000
              "alice" "password9" "mallory@x.com" "true" "false" Fixture.world Fixture.alice)
    as (w' & Hrun & _ & Hver); [discharge..|].
  exists w'. by split.
Defined.

Lemma createUser_failed_write_leaves_nothing_witness :
  createUser Fixture.hash Fixture.envStampFault 1000000
    "dave" "password4" "dave@x.com" "true" "false" Fixture.world
  = (reply 500 "server error", Fixture.world).
Proof.
  apply (createUser_failed_write_leaves_nothing Fixture.hash Fixture.envStampFault 1000000
           "dave" "password4" "dave@x.com" "true" "false" Fixture.world); discharge.
Defined.

Lemma register_then_verifyEmail_witness :
  ∃ w2,
    verifyEmail Scenario.envLate Scenario.code
      (createUser Fixture.hash Fixture.env 1000000
         "dave" "password4" "dave@x.com" "true" "false" Fixture.world).2
    = (reply 200 "email verified", w2)
    ∧ Verified <$> Users w2 !! "dave" = Some "true"%string
    ∧ verifyEmail Scenario.envLate Scenario.code w2
      = (reply 404 "invalid or expired verification code", w2).
Proof.
  destruct (register_then_verifyEmail Fixture.hash Fixture.env 1000000
              "dave" "password4" "dave@x.com" "true" "false" Fixture.world Scenario.envLate)
    as (_ & w2 & Hrun & Hver & _ & Hagain); [discharge..|].
  exists w2. split_and!; [exact Hrun | exact Hver | exact Hagain].
Defined.

Lemma register_then_login_witness :
  ∃ r claims,
    status r = 200
    ∧ r = (verifyUser Fixture.compare Fixture.key Fixture.refreshKey Scenario.envSoon
             "dave" "password4"
             (createUser Fixture.hash Fixture.env 1000000
                "dave" "password4" "dave@x.com" "true" "false" Fixture.world).2).1
    ∧ responseUser r = Some claims
    ∧ claims !! "Verified" = Some (JString "false").
Proof.
  destruct (register_then_login Fixture.hash Fixture.compare Fixture.key Fixture.refreshKey
              Fixture.env 1000000 "dave" "password4" "dave@x.com" "true" "false"
              Fixture.world Scenario.envSoon)
    as (r & claims & Hrun & Hstatus & Hclaims & _ & Hver & _); [discharge..|].
  exists r, claims. split_and!; [exact Hstatus | by rewrite Hrun | exact Hclaims | exact Hver].
Defined.

Lemma login_token_at_the_gate_witness :
  (∃ token,
     accessToken (verifyUser Fixture.compare Fixture.key Fixture.refreshKey Fixture.env
                    "alice" "password1" Fixture.world).1 = Some token
     ∧ authenticateToken Fixture.key true 1001799 (Some token) = Next (jwtPayload token)
     ∧ authenticateToken Fixture.key true 1001800 (Some token)
       = Sent (reply 401 "token expired"))
  ∧ (∃ token,
       accessToken (verifyUser Fixture.compare Fixture.key Fixture.refreshKey Fixture.env
                      "carol" "password3" Fixture.world).1 = Some token
       ∧ authenticateToken Fixture.key true 1000100 (Some token)
         = Sent (reply 403 "account not verified")
       ∧ authenticateToken Fixture.key false 1000100 (Some token) = Next (jwtPayload token)).
Proof.
  split.
  - destruct (login_token_at_the_gate Fixture.compare Fixture.key Fixture.refreshKey Fixture.env
                "alice" "password1" Fixture.world Fixture.alice true 1001799)
      as (token & Htoken & _ & Hin); [discharge..|].
    destruct (login_token_at_the_gate Fixture.compare Fixture.key Fixture.refreshKey Fixture.env
                "alice" "password1" Fixture.world Fixture.alice true 1001800)
      as (token' & Htoken' & Hout & _); [discharge..|].
    rewrite Htoken in Htoken'. injection Htoken' as <-.
    exists token. split_and!; [exact Htoken | apply Hin; discharge | apply Hout; discharge].
  - destruct (login_token_at_the_gate Fixture.compare Fixture.key Fixture.refreshKey Fixture.env
                "carol" "password3" Fixture.world Fixture.carol true 1000100)
      as (token & Htoken & _ & Hin); [discharge..|].
    destruct (login_token_at_the_gate Fixture.compare Fixture.key Fixture.refreshKey Fixture.env
                "carol" "password3" Fixture.world Fixture.carol false 1000100)
      as (token' & Htoken' & _ & Hin'); [discharge..|].
    rewrite Htoken in Htoken'. injection Htoken' as <-.
    exists token. split_and!; [exact Htoken | apply Hin; discharge | apply Hin'; discharge].
Defined.

Lemma refresh_token_at_the_gate_witness :
  (∃ refresh,
     refreshToken (verifyUser Fixture.compare Fixture.key Fixture.refreshKey Fixture.env
                     "alice" "password1" Fixture.world).1 = Some refresh
     ∧ authenticateToken Fixture.key false 1000100 (Some refresh)
       = Sent (reply 403 "invalid token"))
  ∧ (∃ refresh,
       refreshToken (verifyUser Fixture.compare None None Fixture.env
                       "alice" "password1" Fixture.world).1 = Some refresh
       ∧ authenticateToken None false 1000100 (Some refresh) = Next (jwtPayload refresh)).
Proof.
  split.
  - destruct (refresh_token_at_the_gate Fixture.compare Fixture.key Fixture.refreshKey Fixture.env
                "alice" "password1" Fixture.world Fixture.alice 1000100)
      as (refresh & Hrefresh & Hdiffer & _); [discharge..|].
    exists refresh. split; [exact Hrefresh | apply Hdiffer; discharge].
  - destruct (refresh_token_at_the_gate Fixture.compare None None Fixture.env
                "alice" "password1" Fixture.world Fixture.alice 1000100)
      as (refresh & Hrefresh & _ & Hsame); [discharge..|].
    exists refresh. split; [exact Hrefresh | apply Hsame; discharge].
Defined.

Lemma changePassword_refuses_in_order_witness :
  changePassword Fixture.hash Fixture.compare Fixture.env "alice" "guess" "x" Fixture.world
  = (reply 401 "The old password is invalid.", Fixture.world)
  ∧ changePassword Fixture.hash Fixture.compare Fixture.env "alice" "password1" "short"
      Fixture.world
    = (reply 400 "New password must be at least 8 characters long.", Fixture.world).
Proof.
  split.
  - apply (changePassword_refuses_in_order Fixture.hash Fixture.compare Fixture.env
             "alice" "guess" "x" Fixture.world Fixture.alice); discharge.
  - apply (changePassword_refuses_in_order Fixture.hash Fixture.compare Fixture.env
             "alice" "password1" "short" Fixture.world Fixture.alice); discharge.
Defined.

Lemma changePassword_is_not_atomic_witness :
  changePassword Fixture.hash Fixture.compare Fixture.envStampFault
    "alice" "password1" "newpassword" Fixture.world
  = (reply 500 "Internal server error", Fixture.world)
  ∧ ∃ w',
      changePassword Fixture.hash Fixture.compare Scenario.envThirdFault
        "alice" "password1" "newpassword" Fixture.world
      = (reply 500 "Internal server error", w')
      ∧ Password <$> Users w' !! "alice" = Some "salt$newpassword"%string
      ∧ LastPasswordChange <$> Users w' !! "alice" = Some 1000.
Proof.
  split.
  - apply (changePassword_is_not_atomic Fixture.hash Fixture.compare Fixture.envStampFault
             "alice" "password1" "newpassword" Fixture.world Fixture.alice); discharge.
  - destruct (changePassword_is_not_atomic Fixture.hash Fixture.compare Scenario.envThirdFault
                "alice" "password1" "newpassword" Fixture.world Fixture.alice)
      as [_ H]; [discharge..|].
    destruct H as (w' & Hrun & Hpw & Hstamp); [discharge..|].
    exists w'. split_and!; [exact Hrun | exact Hpw | exact Hstamp].
Defined.

Lemma changePassword_then_login_witness :
  ∃ w',
    changePassword Fixture.hash Fixture.compare Fixture.env
      "alice" "password1" "newpassword" Fixture.world
    = (reply 200 "Password changed successfully.", w')
    ∧ LastPasswordChange <$> Users w' !! "alice" = Some 1000000
    ∧ status (verifyUser Fixture.compare Fixture.key Fixture.refreshKey Scenario.envSoon
                "alice" "newpassword" w').1 = 200
    ∧ verifyUser Fixture.compare Fixture.key Fixture.refreshKey Scenario.envSoon
        "alice" "password1" w'
      = (reply 401 "invalid login credentials", w').
Proof.
  destruct (changePassword_then_login Fixture.hash Fixture.compare Fixture.key Fixture.refreshKey
              Fixture.env "alice" "password1" "newpassword" Fixture.world Fixture.alice
              Scenario.envSoon)
    as (w' & Hrun & _ & Hstamp & Hnew & Hold); [discharge..|].
  exists w'. split_and!; [exact Hrun | exact Hstamp | apply Hnew; discharge | apply Hold; discharge].
Defined.

Lemma sendPasswordResetEmail_gates_witness :
  sendPasswordResetEmail Fixture.key Fixture.env "carol" Fixture.world
  = (reply 403 "user is not verified", Fixture.world)
  ∧ sendPasswordResetEmail Fixture.key Scenario.envEarly "bob" Fixture.world
    = (reply 429 "you have requested a password reset recently. Please try again later.",
       Fixture.world).
Proof.
  split.
  - apply (sendPasswordResetEmail_gates Fixture.key Fixture.env "carol" Fixture.world
             Fixture.carol); discharge.
  - apply (sendPasswordResetEmail_gates Fixture.key Scenario.envEarly "bob" Fixture.world
             Fixture.bob); discharge.
Defined.

Lemma sendPasswordResetEmail_then_resetPassword_witness :
  (∃ w2,
     resetPassword Fixture.hash Scenario.envSoon Scenario.code
       (sendPasswordResetEmail Fixture.key Fixture.env "alice" Fixture.world).2
     = (reply 200 "Password reset successful. Please check your email for the new password.",
        w2)
     ∧ TokenTable w2 !! Scenario.code = None)
  ∧ (∃ w2,
       resetPassword Fixture.hash Scenario.envLate Scenario.code
         (sendPasswordResetEmail Fixture.key Fixture.env "alice" Fixture.world).2
       = (reply 410 "Verification code has expired. Please request a new password reset.",
          w2)
       ∧ Password <$> Users w2 !! "alice" = Some (Password Fixture.alice)
       ∧ TokenTable w2 !! Scenario.code = None).
Proof.
  split.
  - destruct (sendPasswordResetEmail_then_resetPassword Fixture.hash Fixture.key Fixture.env
                "alice" Fixture.world Fixture.alice Scenario.envSoon)
      as [H _]; [discharge..|].
    destruct H as (w2 & Hrun & _ & Htok); [discharge..|].
    exists w2. split; [exact Hrun | exact Htok].
  - destruct (sendPasswordResetEmail_then_resetPassword Fixture.hash Fixture.key Fixture.env
                "alice" Fixture.world Fixture.alice Scenario.envLate)
      as [_ H]; [discharge..|].
    destruct H as (w2 & Hrun & Hpw & Htok); [discharge..|].
    exists w2. split_and!; [exact Hrun | exact Hpw | exact Htok].
Defined.


Lemma requestEmailChange_then_verifyEmailChange_witness :
  isValidEmail "not an address" = false
  ∧ ∃ w2,
      verifyEmailChange Scenario.envSoon Scenario.code
        (requestEmailChange Fixture.compare Fixture.key Fixture.env
           "alice" "password1" "not an address" Fixture.world).2
      = (reply 200 "Email address successfully updated.", w2)
      ∧ Email <$> Users w2 !! "alice" = Some "not an address"%string
      ∧ verifyEmailChange Scenario.envSoon Scenario.code w2
        = (reply 410 "Verification token is invalid or has expired.", w2).
Proof.
  split; [by vm_compute|].
  destruct (requestEmailChange_then_verifyEmailChange Fixture.compare Fixture.key Fixture.env
              "alice" "password1" "not an address" Fixture.world Fixture.alice Scenario.envSoon)
    as (_ & w2 & Hrun & Hmail & _ & Hagain); [discharge..|].
  exists w2. split_and!; [exact Hrun | exact Hmail | exact Hagain].
Defined.

Lemma token_of_request_carries_password_hash_witness :
  (∃ jwt,
     accessToken (requestEmailChange Fixture.compare Fixture.key Fixture.env
                    "alice" "password1" "alice@new.example" Fixture.world).1 = Some jwt
     ∧ jwtPayload jwt !! "Password" = Some (JString "salt$password1"))
  ∧ (∃ jwt,
       accessToken (sendPasswordResetEmail Fixture.key Fixture.env "alice" Fixture.world).1
       = Some jwt
       ∧ jwtPayload jwt !! "Password" = Some (JString "salt$password1")).
Proof.
  destruct (token_of_request_carries_password_hash Fixture.compare Fixture.key Fixture.env
              "alice" "password1" "alice@new.example" Fixture.world Fixture.alice)
    as [Hmail Hreset]; [discharge..|].
  split.
  - destruct Hmail as (jwt & Hjwt & Hpw & _); [discharge..|].
    exists jwt. split; [exact Hjwt | exact Hpw].
  - destruct Hreset as (jwt & Hjwt & Hpw & _); [discharge..|].
    exists jwt. split; [exact Hjwt | exact Hpw].
Defined.

Lemma verifyEmail_already_verified_keeps_token_witness :
  verifyEmail Fixture.env "c0de5" Scenario.worldWithAliceCode
  = (reply 410 "account already verified", Scenario.worldWithAliceCode)
  ∧ TokenTable (verifyEmail Fixture.env "c0de5" Scenario.worldWithAliceCode).2 !! "c0de5"
    = Some Scenario.aliceCode.
Proof.
  apply (verifyEmail_already_verified_keeps_token Fixture.env "c0de5"
           Scenario.worldWithAliceCode Scenario.aliceCode Fixture.alice); discharge.
Defined.

Lemma deleteUserAccount_does_not_roll_back_witness :
  (∃ w',
     deleteUserAccount Fixture.compare Scenario.envTokensFail "bob" "password2" Fixture.world
     = (reply 500 "server error", w')
     ∧ Bucket w' = delete "0a1b-2c3d" (Bucket Fixture.world)
     ∧ Users w' = Users Fixture.world)
  ∧ deleteUserAccount Fixture.compare Scenario.envNoRemove "bob" "password2" Fixture.world
    = (reply 500 "server error", Fixture.world).
Proof.
  split.
  - destruct (deleteUserAccount_does_not_roll_back Fixture.compare Scenario.envTokensFail
                "bob" "password2" Fixture.world Fixture.bob "0a1b-2c3d")
      as [H _]; [discharge..|].
    destruct H as (w' & Hrun & Hbucket & Husers & _); [discharge..|].
    exists w'. by split_and!.
  - apply (deleteUserAccount_does_not_roll_back Fixture.compare Scenario.envNoRemove
             "bob" "password2" Fixture.world Fixture.bob "0a1b-2c3d"); discharge.
Defined.

Lemma changeProfilePic_twice_witness :
  changeProfilePic Fixture.link Fixture.key Scenario.envSoon "alice" "png2"
    (changeProfilePic Fixture.link Fixture.key Fixture.env "alice" "png1" Fixture.world).2
  = (reply 403 "the user profile picture was changed in the last week",
     (changeProfilePic Fixture.link Fixture.key Fixture.env "alice" "png1" Fixture.world).2)
  ∧ status (changeProfilePic Fixture.link Fixture.key Scenario.envLate "alice" "png2"
              (changeProfilePic Fixture.link Fixture.key Fixture.env "alice" "png1"
                 Fixture.world).2).1 = 200
  ∧ Bucket (changeProfilePic Fixture.link Fixture.key Scenario.envLate "alice" "png2"
              (changeProfilePic Fixture.link Fixture.key Fixture.env "alice" "png1"
                 Fixture.world).2).2 !! "9f8e-7d6c" = None.
Proof.
  destruct (changeProfilePic_twice Fixture.link Fixture.key Fixture.env Scenario.envSoon
              "alice" "png1" "png2" Fixture.world Fixture.alice)
    as (_ & Hsoon & _); [discharge..|].
  destruct (changeProfilePic_twice Fixture.link Fixture.key Fixture.env Scenario.envLate
              "alice" "png1" "png2" Fixture.world Fixture.alice)
    as (_ & _ & Hlate); [discharge..|].
  destruct Hlate as (Hstatus & Hgone & _); [discharge..|].
  split_and!; [apply Hsoon; discharge | exact Hstatus | exact Hgone].
Defined.

Lemma resetPassword_mails_the_stored_password_witness :
  Outbox (resetPassword Fixture.hash Fixture.env "c0de3" Fixture.world).2
  = [NewPasswordEmail "alice@x.com" "alice" "aliceabababababababab"]
  ∧ status (verifyUser Fixture.compare Fixture.key Fixture.refreshKey Scenario.envSoon
              "alice" "aliceabababababababab"
              (resetPassword Fixture.hash Fixture.env "c0de3" Fixture.world).2).1 = 200.
Proof.
  destruct (resetPassword_mails_the_stored_password Fixture.hash Fixture.compare Fixture.key
              Fixture.refreshKey Fixture.env "c0de3" Fixture.world Fixture.liveReset
              Fixture.alice Scenario.envSoon)
    as (Hout & _ & Hlogin); [discharge..|].
  split; [exact Hout | apply Hlogin; discharge].
Defined.

Lemma methods_keep_tables_keyed_witness :
  wellKeyed (createUser Fixture.hash Fixture.env 1000000
               "dave" "password4" "dave@x.com" "true" "false" Fixture.world).2
  ∧ wellKeyed (deleteUserAccount Fixture.compare Fixture.env "bob" "password2" Fixture.world).2.
Proof.
  destruct (methods_keep_tables_keyed Fixture.hash Fixture.compare Fixture.link Fixture.key
              Fixture.refreshKey Fixture.env 1000000 "dave" "password4" "dave@x.com" "true"
              "false" "dave@new.example" "c0de4" "password4" "newpassword" "png" Fixture.world
              fixture_wellKeyed)
    as (Hcreate & _).
  destruct (methods_keep_tables_keyed Fixture.hash Fixture.compare Fixture.link Fixture.key
              Fixture.refreshKey Fixture.env 1000000 "bob" "password2" "bob@x.com" "true"
              "false" "bob@new.example" "c0de4" "password2" "newpassword" "png" Fixture.world
              fixture_wellKeyed)
    as (_ & _ & _ & _ & _ & _ & _ & _ & _ & Hdelete).
  split; [exact Hcreate | exact Hdelete].
Defined.

Lemma changeProfilePic_then_deleteUserAccount_witness :
  ∃ w2,
    deleteUserAccount Fixture.compare Scenario.envLate "alice" "password1"
      (changeProfilePic Fixture.link Fixture.key Fixture.env "alice" "png" Fixture.world).2
    = (reply 200 "account deleted succesfuly", w2)
    ∧ Bucket w2 !! "9f8e-7d6c" = None
    ∧ Users w2 !! "alice" = None.
Proof.
  destruct (changeProfilePic_then_deleteUserAccount Fixture.compare Fixture.link Fixture.key
              Fixture.env Scenario.envLate "alice" "png" "password1" Fixture.world
              Fixture.alice)
    as (_ & w2 & Hrun & Hbucket & Husers); [discharge..|].
  exists w2. split_and!; [exact Hrun | exact Hbucket | exact Husers].
Defined.

Lemma register_then_deleteUserAccount_witness :
  ∃ w2,
    deleteUserAccount Fixture.compare Scenario.envNoRemove "dave" "password4"
      (createUser Fixture.hash Fixture.env 1000000
         "dave" "password4" "dave@x.com" "true" "false" Fixture.world).2
    = (reply 200 "account deleted succesfuly", w2)
    ∧ Bucket w2 = Bucket Fixture.world
    ∧ Users w2 !! "dave" = None
    ∧ TokenTable w2 !! Scenario.code = None.
Proof.
  destruct (register_then_deleteUserAccount Fixture.hash Fixture.compare Fixture.env 1000000
              "dave" "password4" "dave@x.com" "true" "false" Fixture.world Scenario.envNoRemove)
    as (_ & w2 & Hrun & Hbucket & Husers & Htok); [discharge..|].
  exists w2. split_and!; [exact Hrun | exact Hbucket | exact Husers | exact Htok].
Defined.

Lemma authTokenOptional_on_login_token_witness :
  ∃ token,
    accessToken (verifyUser Fixture.compare Fixture.key Fixture.refreshKey Fixture.env
                   "carol" "password3" Fixture.world).1 = Some token
    ∧ authTokenOptional Fixture.key 1001800 (Some token) = Sent (reply 401 "token expired")
    ∧ authTokenOptional Fixture.key 1001799 (Some token) = Next (jwtPayload token).
Proof.
  destruct (authTokenOptional_on_login_token Fixture.compare Fixture.key Fixture.refreshKey
              Fixture.env "carol" "password3" Fixture.world Fixture.carol 1001800)
    as (_ & token & Htoken & Hout & _); [discharge..|].
  destruct (authTokenOptional_on_login_token Fixture.compare Fixture.key Fixture.refreshKey
              Fixture.env "carol" "password3" Fixture.world Fixture.carol 1001799)
    as (_ & token' & Htoken' & _ & Hin); [discharge..|].
  rewrite Htoken in Htoken'. injection Htoken' as <-.
  exists token. split_and!; [exact Htoken | apply Hout; discharge | apply Hin; discharge].
Defined.
